(** * Freshdesk ticket viewer: proxy routes, upstream client and dashboard loader

    A shallow embedding of the server-side routes of the ticket viewer
    ([tickets/[id]], [tickets/[id]/conversations], [attachments/[id]],
    [search]), of the upstream client [FreshdeskAPI] in
    [src/lib/freshdesk-api.ts], and of the data loader of the dashboard
    component, followed by the properties of the specification that concern
    them.

    Conventions of the embedding.
    - A JavaScript string is a [string]: a sequence of code units below 256.
    - A JavaScript number that the code inspects or formats is an integer
      [Z]; [NaN] is [None] in the result of [parseInt].  The embedding is
      exact for integers of magnitude below 2^53; beyond that JavaScript
      rounds to a double, which never changes whether the value is zero.
    - A value of type [any] (a parsed JSON payload, an object literal) is a
      [JsVal]; objects are finite maps from property names to values.
    - [fetch] is an oracle: the [World] answers every request, and every
      request issued is appended to a log, so that "no network call" is the
      statement that the log is empty.
    - Exceptions are explicit: a computation returns [Throw e] or [Ok a].
    - A timer that aborts a request is the oracle outcome [FetchAbort].
    - [console.log] is left out, except for the property reads in its
      arguments that can throw ([ticket.subject], [results.results] in the
      search route). *)

From Stdlib Require Import ZArith Ascii String DecimalString DecimalPos Lia.
From stdpp Require Import base option list strings gmap.

#[local] Set Warnings "-register-all".
#[local] Open Scope Z_scope.

(** ** JavaScript primitives *)

Module Js.

(** Values of type [any]. *)
Inductive JsVal : Type :=
| JUndefined
| JNull
| JBool (b : bool)
| JNum (n : Z)
| JStr (s : string)
| JArr (l : list JsVal)
| JObj (m : gmap string JsVal).

(** An object literal [{ k1: v1, k2: v2, ... }]. *)
Definition obj (fields : list (string * JsVal)) : JsVal :=
  JObj (list_to_map fields).

(** [ToBoolean]. *)
Definition truthy (v : JsVal) : bool :=
  match v with
  | JUndefined | JNull => false
  | JBool b => b
  | JNum n => negb (n =? 0)
  | JStr s => negb (String.eqb s "")
  | JArr _ | JObj _ => true
  end.

(** [a || b] *)
Definition or_else (a b : JsVal) : JsVal := if truthy a then a else b.

(** [v === n] for a number literal [n]. *)
Definition strict_eq_num (v : JsVal) (n : Z) : bool :=
  match v with
  | JNum m => m =? n
  | _ => false
  end.

Definition nullish (v : JsVal) : bool :=
  match v with
  | JUndefined | JNull => true
  | _ => false
  end.

(** The value of [o.k] when [o] is not nullish, for a property name [k] that
    no prototype defines (all the names the routes read are such). *)
Definition prop (k : string) (o : JsVal) : JsVal :=
  match o with
  | JObj m => default JUndefined (m !! k)
  | _ => JUndefined
  end.

(** [o?.k] *)
Definition opt_prop (k : string) (o : JsVal) : JsVal :=
  if nullish o then JUndefined else prop k o.

(** *** Strings *)

(** [strip_prefix p s] is [Some r] when [s] is [p] followed by [r]. *)
Fixpoint strip_prefix (p s : string) : option string :=
  match p with
  | EmptyString => Some s
  | String a p' =>
      match s with
      | EmptyString => None
      | String b s' => if Ascii.eqb a b then strip_prefix p' s' else None
      end
  end.

(** [s.includes(p)] *)
Fixpoint includes (p s : string) : bool :=
  match strip_prefix p s with
  | Some _ => true
  | None =>
      match s with
      | EmptyString => false
      | String _ s' => includes p s'
      end
  end.

(** [s.replace(p, r)] for a string pattern [p] and a replacement [r] without
    [$]: the first occurrence of [p] is replaced. *)
Fixpoint replace (p r s : string) : string :=
  match strip_prefix p s with
  | Some rest => r +:+ rest
  | None =>
      match s with
      | EmptyString => EmptyString
      | String c s' => String c (replace p r s')
      end
  end.

(** [s.split(sep)[0]] for a one-character separator: the text before the
    first [sep], the whole of [s] when there is none. *)
Fixpoint split_head (sep : ascii) (s : string) : string :=
  match s with
  | EmptyString => EmptyString
  | String c s' => if Ascii.eqb c sep then EmptyString else String c (split_head sep s')
  end.

(** The longest prefix of [s] whose characters satisfy [f], and the rest. *)
Fixpoint span (f : ascii -> bool) (s : string) : string * string :=
  match s with
  | EmptyString => (EmptyString, EmptyString)
  | String c s' =>
      if f c then let '(a, b) := span f s' in (String c a, b)
      else (EmptyString, s)
  end.

Fixpoint filter_chars (f : ascii -> bool) (s : string) : string :=
  match s with
  | EmptyString => EmptyString
  | String c s' => if f c then String c (filter_chars f s') else filter_chars f s'
  end.

Definition code (c : ascii) : Z := Z.of_N (N_of_ascii c).

(** The double quote character. *)
Definition double_quote : ascii := ascii_of_N 34.

Definition is_digit (c : ascii) : bool := (48 <=? code c) && (code c <=? 57).

(** [String(n)] for an integer [n]. *)
Definition Number_toString (n : Z) : string :=
  NilZero.string_of_int (Z.to_int n).

(** *** Number.parseInt *)

(** White space that [parseInt] skips: TAB, LF, VT, FF, CR, SP, NBSP. *)
Definition is_white_space (c : ascii) : bool :=
  ((9 <=? code c) && (code c <=? 13)) || (code c =? 32) || (code c =? 160).

Fixpoint trim_start (s : string) : string :=
  match s with
  | String c s' => if is_white_space c then trim_start s' else s
  | EmptyString => EmptyString
  end.

(** The value of a character as a digit, in any radix up to 36. *)
Definition digit_value (c : ascii) : option Z :=
  let n := code c in
  if (48 <=? n) && (n <=? 57) then Some (n - 48)
  else if (97 <=? n) && (n <=? 122) then Some (n - 87)
  else if (65 <=? n) && (n <=? 90) then Some (n - 55)
  else None.

(** Reads the longest prefix of [s] made of radix-[R] digits; [acc] is the
    value read so far, [None] while no digit has been read. *)
Fixpoint read_digits (R : Z) (s : string) (acc : option Z) : option Z :=
  match s with
  | EmptyString => acc
  | String c s' =>
      match digit_value c with
      | Some d =>
          if d <? R then read_digits R s' (Some (R * default 0 acc + d))
          else acc
      | None => acc
      end
  end.

(** [Number.parseInt(s, radix)]; [radix = 0] stands for an omitted radix.
    [None] is [NaN]; [-0] is [Some 0]. *)
Definition parseInt (s : string) (radix : Z) : option Z :=
  let trimmed := trim_start s in
  let '(sign, body) :=
    match trimmed with
    | String "-" r => (-1, r)
    | String "+" r => (1, r)
    | _ => (1, trimmed)
    end in
  if negb (radix =? 0) && ((radix <? 2) || (36 <? radix)) then None
  else
    let stripPrefix := (radix =? 0) || (radix =? 16) in
    let R := if radix =? 0 then 10 else radix in
    let '(R, body) :=
      if stripPrefix then
        match body with
        | String "0" (String "x" r) | String "0" (String "X" r) => (16, r)
        | _ => (R, body)
        end
      else (R, body) in
    match read_digits R body None with
    | None => None
    | Some mathInt => Some (sign * mathInt)
    end.

(** [!n] for the result of [parseInt]: true for [NaN] and for zero. *)
Definition not_number (n : option Z) : bool :=
  match n with
  | None => true
  | Some k => k =? 0
  end.

End Js.

Import Js.

(** ** Effects: exceptions and the log of upstream calls *)

Module Eff.

(** A thrown value: an [Error] object with its [name] and [message], or any
    other value, kept as what [String(value)] shows. *)
Inductive Thrown : Type :=
| Err (name message : string)
| NonErr (shown : string).

(** [new Error(message)] *)
Definition Error (message : string) : Thrown := Err "Error" message.

(** A request handed to [fetch].  [req_basic_auth] is the argument of [btoa]
    in the [Authorization: Basic] header; [req_json] tells whether the
    [Content-Type: application/json] header is sent; [req_query] holds the
    parameters of a [URLSearchParams] appended to the URL; [req_timeout] is
    the delay of the timer that aborts the request, in milliseconds. *)
Record Request : Type := {
  req_url : string;
  req_query : list (string * string);
  req_basic_auth : string;
  req_json : bool;
  req_timeout : Z
}.

Inductive Result (A : Type) : Type :=
| Ok (a : A)
| Throw (e : Thrown).
Arguments Ok {A} a.
Arguments Throw {A} e.

(** A computation: its outcome and the requests it issued, in order. *)
Definition M (A : Type) : Type := Result A * list Request.

Definition ret {A} (a : A) : M A := (Ok a, []).
Definition throw {A} (e : Thrown) : M A := (Throw e, []).

Definition bind {A B} (m : M A) (k : A -> M B) : M B :=
  match m with
  | (Ok a, calls) => let '(r, calls') := k a in (r, calls ++ calls')
  | (Throw e, calls) => (Throw e, calls)
  end.

(** [try { m } catch (e) { handler e }] *)
Definition try_catch {A} (m : M A) (handler : Thrown -> M A) : M A :=
  match m with
  | (Ok a, calls) => (Ok a, calls)
  | (Throw e, calls) => let '(r, calls') := handler e in (r, calls ++ calls')
  end.

Definition outcome {A} (m : M A) : Result A := fst m.
Definition calls {A} (m : M A) : list Request := snd m.

End Eff.

Import Eff.

Declare Scope eff_scope.
Delimit Scope eff_scope with eff.
Notation "'let*' x ':=' m 'in' k" := (bind m (fun x => k))
  (at level 10, x name, m at level 100, k at level 200) : eff_scope.
#[local] Open Scope eff_scope.

(** ** The upstream service and the transport *)

Module Upstream.

(** An upstream response.  [up_headers] is keyed by lower-case header names;
    [up_body] is what [text()] and [blob()] deliver; [up_json] is what
    [json()] delivers: the parsed payload, or the [SyntaxError] thrown. *)
Record UpResponse : Type := {
  up_status : Z;
  up_statusText : string;
  up_headers : gmap string string;
  up_body : string;
  up_json : Result JsVal
}.

(** [response.ok] *)
Definition up_ok (r : UpResponse) : bool :=
  (200 <=? up_status r) && (up_status r <=? 299).

Inductive FetchOutcome : Type :=
| FetchAbort                      (* the timer fired before the response *)
| FetchFailed (e : Thrown)        (* [fetch] rejected *)
| FetchResponse (r : UpResponse).

(** The environment of a run: what the upstream service answers to each
    request, whether a request of the browser to a route of this application
    fails in transit, and the status text the browser sees for a status. *)
Record World : Type := {
  upstream : Request -> FetchOutcome;
  local_failure : string -> option Thrown;
  reason_phrase : Z -> string
}.

(** [await fetch(url, { headers, signal })] *)
Definition fetch (w : World) (req : Request) : M UpResponse :=
  match upstream w req with
  | FetchAbort => (Throw (Err "AbortError" "This operation was aborted"), [req])
  | FetchFailed e => (Throw e, [req])
  | FetchResponse r => (Ok r, [req])
  end.

(** [await response.json()] *)
Definition up_read_json (r : UpResponse) : M JsVal := (up_json r, []).

End Upstream.

Import Upstream.

(** ** The upstream client: [src/lib/freshdesk-api.ts] *)

Module Client.

Record FreshdeskConfig : Type := {
  domain : string;
  apiKey : string
}.

(** [process.env]: each variable is unset or a string. *)
Record Env : Type := {
  FRESHDESK_DOMAIN : option string;
  FRESHDESK_API_KEY : option string
}.

(** [a || b] for [a : string | undefined | null] and a string [b]. *)
Definition str_or (a : option string) (b : string) : string :=
  match a with
  | Some s => if String.eqb s "" then b else s
  | None => b
  end.

(** [!a] for [a : string | undefined | null]. *)
Definition str_falsy (a : option string) : bool :=
  match a with
  | Some s => String.eqb s ""
  | None => true
  end.

(** The exported constant [freshdeskConfig]. *)
Definition freshdeskConfig (env : Env) : FreshdeskConfig :=
  {| domain := str_or (FRESHDESK_DOMAIN env) "";
     apiKey := str_or (FRESHDESK_API_KEY env) "" |}.

Record FreshdeskAPI : Type := {
  config : FreshdeskConfig;
  baseUrl : string
}.

(** [new FreshdeskAPI(config)] *)
Definition new_FreshdeskAPI (cfg : FreshdeskConfig) : FreshdeskAPI :=
  let cleanDomain := replace ".freshdesk.com" "" (domain cfg) in
  {| config := cfg;
     baseUrl := "https://" +:+ cleanDomain +:+ ".freshdesk.com/api/v2" |}.

(** The request that carries the headers of [getAuthHeaders]. *)
Definition authed_request (api : FreshdeskAPI) (url : string)
    (query : list (string * string)) (timeout : Z) : Request :=
  {| req_url := url; req_query := query;
     req_basic_auth := apiKey (config api) +:+ ":X";
     req_json := true; req_timeout := timeout |}.

(** The [catch] block shared by [getTicket] and [getConversations]. *)
Definition rethrow_with_context {A} (error : Thrown) : M A :=
  match error with
  | Err name message =>
      if String.eqb name "AbortError" then
        throw (Error "Request timeout - Freshdesk API took too long to respond")
      else if includes "fetch failed" message then
        throw (Error "Network error - Unable to connect to Freshdesk API. Check your domain and network connectivity.")
      else throw error
  | NonErr _ => throw error
  end.

Definition ticket_request (api : FreshdeskAPI) (ticketId : Z) : Request :=
  authed_request api (baseUrl api +:+ "/tickets/" +:+ Number_toString ticketId)
    [] 10000.

Definition getTicket (w : World) (api : FreshdeskAPI) (ticketId : Z) : M JsVal :=
  try_catch
    (let* response := fetch w (ticket_request api ticketId) in
     if negb (up_ok response) then
       let errorText := up_body response in
       if up_status response =? 404 then
         throw (Error ("Ticket #" +:+ Number_toString ticketId +:+ " not found"))
       else if up_status response =? 401 then
         throw (Error "Authentication failed - check your API key and domain")
       else
         throw (Error ("Failed to fetch ticket: "
                       +:+ Number_toString (up_status response) +:+ " "
                       +:+ up_statusText response +:+ " - " +:+ errorText))
     else up_read_json response)
    rethrow_with_context.

Definition conversations_request (api : FreshdeskAPI) (ticketId page : Z) : Request :=
  authed_request api
    (baseUrl api +:+ "/tickets/" +:+ Number_toString ticketId
     +:+ "/conversations?page=" +:+ Number_toString page +:+ "&per_page=100")
    [] 10000.

Definition getConversations (w : World) (api : FreshdeskAPI) (ticketId page : Z)
    : M JsVal :=
  try_catch
    (let* response := fetch w (conversations_request api ticketId page) in
     if negb (up_ok response) then
       let errorText := up_body response in
       if up_status response =? 401 then
         throw (Error "Authentication failed - check your API key and domain")
       else if up_status response =? 404 then
         throw (Error ("Ticket #" +:+ Number_toString ticketId
                       +:+ " not found or no conversations available"))
       else
         throw (Error ("Failed to fetch conversations: "
                       +:+ Number_toString (up_status response) +:+ " "
                       +:+ up_statusText response +:+ " - " +:+ errorText))
     else up_read_json response)
    rethrow_with_context.

(** *** The content-disposition pattern

    The pattern of [getAttachment] is [filename], a greedy run of the class
    "not semicolon, equals sign or line feed", an equals sign, and group 1:
    either a quote character (single or double, group 2), a lazy run of [.]
    and the same quote character again, or else a greedy run of the class
    "not semicolon or line feed".  The code reads group 1.  The first class
    excludes the equals sign, so its greedy run never has to give characters
    back.  Nothing follows group 1, so its first alternative that matches
    decides it. *)

Definition is_quote (c : ascii) : bool := (code c =? 39) || (code c =? 34).

(** Characters that [.] does not match. *)
Definition is_line_terminator (c : ascii) : bool := (code c =? 10) || (code c =? 13).

Definition in_name_class (c : ascii) : bool :=
  negb ((code c =? 59) || (code c =? 61) || (code c =? 10)).

Definition in_value_class (c : ascii) : bool :=
  negb ((code c =? 59) || (code c =? 10)).

(** The lazy run after the opening quote [q]: the text up to the first [q], when
    no line terminator comes before it. *)
Fixpoint until_quote (q : ascii) (s : string) : option string :=
  match s with
  | EmptyString => None
  | String c s' =>
      if Ascii.eqb c q then Some EmptyString
      else if is_line_terminator c then None
      else option_map (String c) (until_quote q s')
  end.

(** Group 1, matched at the text [s] that follows ["="]. *)
Definition filename_group (s : string) : string :=
  let unquoted := fst (span in_value_class s) in
  match s with
  | String q s' =>
      if is_quote q then
        match until_quote q s' with
        | Some inner => String q (inner +:+ String q EmptyString)
        | None => unquoted
        end
      else unquoted
  | EmptyString => unquoted
  end.

(** The pattern tried at the start of [s]. *)
Definition filename_match_here (s : string) : option string :=
  match strip_prefix "filename" s with
  | None => None
  | Some r =>
      match snd (span in_name_class r) with
      | String "=" t => Some (filename_group t)
      | _ => None
      end
  end.

(** [s.match(pattern)]: group 1 of the leftmost match, [None] for [null]. *)
Fixpoint filename_match (s : string) : option string :=
  match filename_match_here s with
  | Some g => Some g
  | None =>
      match s with
      | EmptyString => None
      | String _ s' => filename_match s'
      end
  end.

Record AttachmentData : Type := {
  blob : string;
  contentType : string;
  filename : string
}.

Definition attachment_request (api : FreshdeskAPI) (attachmentId : Z) : Request :=
  {| req_url := baseUrl api +:+ "/attachments/" +:+ Number_toString attachmentId;
     req_query := [];
     req_basic_auth := apiKey (config api) +:+ ":X";
     req_json := false;
     req_timeout := 15000 |}.

Definition getAttachment (w : World) (api : FreshdeskAPI) (attachmentId : Z)
    : M AttachmentData :=
  try_catch
    (let* response := fetch w (attachment_request api attachmentId) in
     if negb (up_ok response) then
       let errorText := up_body response in
       if up_status response =? 404 then
         throw (Error ("Attachment " +:+ Number_toString attachmentId +:+ " not found"))
       else if up_status response =? 401 then
         throw (Error "Authentication failed - check your API key")
       else
         throw (Error ("Failed to fetch attachment: "
                       +:+ Number_toString (up_status response) +:+ " "
                       +:+ up_statusText response +:+ " - " +:+ errorText))
     else
       let contentType :=
         str_or (up_headers response !! "content-type") "application/octet-stream" in
       let contentDisposition :=
         str_or (up_headers response !! "content-disposition") "" in
       let filenameMatch := filename_match contentDisposition in
       let filename :=
         match filenameMatch with
         | Some g => filter_chars (fun c => negb (is_quote c)) g
         | None => "attachment_" +:+ Number_toString attachmentId
         end in
       ret {| blob := up_body response;
              contentType := contentType;
              filename := filename |})
    (fun error =>
       match error with
       | Err name message =>
           if String.eqb name "AbortError" then
             throw (Error "Attachment download timeout - file took too long to download")
           else if includes "fetch failed" message then
             throw (Error "Network error - Unable to connect to Freshdesk for attachment download")
           else throw (Error ("Failed to fetch attachment: " +:+ message))
       | NonErr shown => throw (Error ("Failed to fetch attachment: " +:+ shown))
       end).

(** A value of the optional [filters] argument of [searchTickets]. *)
Inductive FilterValue : Type :=
| FList (values : list string)
| FScalar (value : string).

(** The request of [searchTickets]: the URL is [req_url], ["?"] and the
    serialised [req_query]. *)
Definition searchTickets (w : World) (api : FreshdeskAPI) (query : string)
    (filters : option (list (string * FilterValue))) : M JsVal :=
  try_catch
    (let searchParams :=
       [("query", query)] ++
       match filters with
       | Some entries =>
           flat_map
             (fun '(key, value) =>
                match value with
                | FList values => map (fun v => (key, v)) values
                | FScalar v => if String.eqb v "" then [] else [(key, v)]
                end)
             entries
       | None => []
       end in
     let* response :=
       fetch w (authed_request api (baseUrl api +:+ "/search/tickets") searchParams 10000) in
     if negb (up_ok response) then
       throw (Error ("Failed to search tickets: " +:+ up_statusText response))
     else up_read_json response)
    (fun error => throw error).

(** [/\/tickets\/(\d+)/], tried at the start of [s]. *)
Definition tickets_match_here (s : string) : option string :=
  match strip_prefix "/tickets/" s with
  | Some r =>
      let digits := fst (span is_digit r) in
      if String.eqb digits "" then None else Some digits
  | None => None
  end.

(** [s.match(/\/tickets\/(\d+)/)]: group 1 of the leftmost match. *)
Fixpoint tickets_match (s : string) : option string :=
  match tickets_match_here s with
  | Some g => Some g
  | None =>
      match s with
      | EmptyString => None
      | String _ s' => tickets_match s'
      end
  end.

(** [s.match(/^\d+$/)] is not [null]. *)
Definition is_number_string (s : string) : bool :=
  negb (String.eqb s "") && String.eqb (fst (span is_digit s)) s.

End Client.

Import Client.

(** ** The routes of the application *)

Module Routes.

Inductive Body : Type :=
| BJson (v : JsVal)
| BBlob (bytes : string).

(** A response of a route; [headers] is keyed by lower-case header names. *)
Record Response : Type := {
  status : Z;
  body : Body;
  headers : gmap string string
}.

(** [NextResponse.json(v, { status })]; the body is [v] before it is
    serialised, which drops the properties whose value is [undefined]. *)
Definition NextResponse_json (v : JsVal) (st : Z) : Response :=
  {| status := st; body := BJson v;
     headers := {[ "content-type" := "application/json" ]} |}.

(** The outermost [try { ... } catch (error) { return ... }] of a route. *)
Definition catch_respond (m : M Response) (handler : Thrown -> Response)
    : Response * list Request :=
  match m with
  | (Ok r, log) => (r, log)
  | (Throw e, log) => (handler e, log)
  end.

(** The number [n] when [!n] is false. *)
Definition as_id (n : option Z) : option Z :=
  if not_number n then None else n.

(** [error instanceof Error ? error.message : fallback] *)
Definition message_or (error : Thrown) (fallback : string) : string :=
  match error with
  | Err _ message => message
  | NonErr _ => fallback
  end.

(** [error instanceof Error && error.message.includes(needle)] *)
Definition error_includes (error : Thrown) (needle : string) : bool :=
  match error with
  | Err _ message => includes needle message
  | NonErr _ => false
  end.

(** The [TypeError] of reading property [k] of [null] or [undefined], with
    the message of V8. *)
Definition read_of_nullish (o : JsVal) (k : string) : Thrown :=
  Err "TypeError"
    ("Cannot read properties of "
     +:+ (match o with JNull => "null" | _ => "undefined" end)
     +:+ " (reading '" +:+ k +:+ "')").

(** [o.k], which throws when [o] is [null] or [undefined]. *)
Definition read (k : string) (o : JsVal) : M JsVal :=
  if nullish o then throw (read_of_nullish o k) else ret (prop k o).

(** The checks of both configuration fields, shared by the ticket and the
    conversations routes; [None] when the configuration passes. *)
Definition configuration_error (cfg : FreshdeskConfig) : option Response :=
  if String.eqb (domain cfg) "" || String.eqb (domain cfg) ""
     || String.eqb (domain cfg) "your-domain" then
    Some (NextResponse_json
            (obj [("error", JStr "Configuration Error");
                  ("details", JStr "FRESHDESK_DOMAIN environment variable is not set. Please add it in Project Settings.")])
            500)
  else if String.eqb (apiKey cfg) "" || String.eqb (apiKey cfg) ""
          || String.eqb (apiKey cfg) "your-api-key" then
    Some (NextResponse_json
            (obj [("error", JStr "Configuration Error");
                  ("details", JStr "FRESHDESK_API_KEY environment variable is not set. Please add it in Project Settings.")])
            500)
  else None.

(** *** [GET /api/freshdesk/tickets/[id]] *)

Module Ticket.

Definition status_name (ticketData : JsVal) : string :=
  if strict_eq_num (prop "status" ticketData) 2 then "open"
  else if strict_eq_num (prop "status" ticketData) 3 then "pending"
  else if strict_eq_num (prop "status" ticketData) 4 then "resolved"
  else if strict_eq_num (prop "status" ticketData) 5 then "closed"
  else "open".

Definition priority_name (ticketData : JsVal) : string :=
  if strict_eq_num (prop "priority" ticketData) 1 then "low"
  else if strict_eq_num (prop "priority" ticketData) 2 then "medium"
  else if strict_eq_num (prop "priority" ticketData) 3 then "high"
  else if strict_eq_num (prop "priority" ticketData) 4 then "urgent"
  else "medium".

(** The object literal [transformedTicket]. *)
Definition transformedTicket (ticketData : JsVal) : M JsVal :=
  let* id := read "id" ticketData in
  ret (obj
    [("id", id);
     ("subject", prop "subject" ticketData);
     ("description",
       or_else (prop "description_text" ticketData) (prop "description" ticketData));
     ("status", JStr (status_name ticketData));
     ("priority", JStr (priority_name ticketData));
     ("requester", obj
       [("name", or_else (opt_prop "name" (prop "requester" ticketData)) (JStr "Unknown"));
        ("email", or_else (opt_prop "email" (prop "requester" ticketData))
                          (JStr "unknown@example.com"));
        ("phone", opt_prop "phone" (prop "requester" ticketData));
        ("avatar", opt_prop "avatar" (prop "requester" ticketData))]);
     ("agent",
       if truthy (prop "responder_id" ticketData) then
         obj
           [("name", or_else (opt_prop "name" (prop "responder" ticketData))
                             (JStr "Unassigned"));
            ("email", or_else (opt_prop "email" (prop "responder" ticketData)) (JStr ""));
            ("avatar", opt_prop "avatar" (prop "responder" ticketData))]
       else JUndefined);
     ("created_at", prop "created_at" ticketData);
     ("updated_at", prop "updated_at" ticketData);
     ("tags", or_else (prop "tags" ticketData) (JArr []))]).

Definition GET (w : World) (env : Env) (params_id : string)
    : Response * list Request :=
  catch_respond
    (match as_id (parseInt params_id 0) with
     | None => ret (NextResponse_json (obj [("error", JStr "Invalid ticket ID")]) 400)
     | Some ticketId =>
         match configuration_error (freshdeskConfig env) with
         | Some response => ret response
         | None =>
             let freshdesk := new_FreshdeskAPI (freshdeskConfig env) in
             try_catch
               (let* ticketData := getTicket w freshdesk ticketId in
                let* transformed := transformedTicket ticketData in
                ret (NextResponse_json transformed 200))
               (fun fetchError =>
                  if error_includes fetchError "404" then
                    ret (NextResponse_json
                           (obj [("error", JStr "Ticket Not Found");
                                 ("details",
                                   JStr ("Ticket #" +:+ Number_toString ticketId
                                         +:+ " does not exist or you don't have permission to access it."));
                                 ("ticketId", JNum ticketId)])
                           404)
                  else
                    ret (NextResponse_json
                           (obj [("error", JStr "Failed to Fetch Ticket");
                                 ("details",
                                   JStr (message_or fetchError "Unknown error occurred"));
                                 ("ticketId", JNum ticketId)])
                           500))
         end
     end)
    (fun error =>
       NextResponse_json
         (obj [("error", JStr "Internal Server Error");
               ("details", JStr (message_or error "Unknown error"))])
         500).

End Ticket.

(** *** [GET /api/freshdesk/tickets/[id]/conversations] *)

Module Conversations.

(** [conv.user?.name || conv.from_email?.split("@")[0] || "Unknown"]; the
    call of [split] throws when [from_email] is neither nullish nor a
    string. *)
Definition author_name (conv : JsVal) : M JsVal :=
  let explicit := opt_prop "name" (prop "user" conv) in
  if truthy explicit then ret explicit
  else
    let* local_part :=
      match prop "from_email" conv with
      | JUndefined | JNull => ret JUndefined
      | JStr s => ret (JStr (split_head "@" s))
      | _ => throw (Err "TypeError" "conv.from_email?.split is not a function")
      end in
    ret (or_else local_part (JStr "Unknown")).

(** The body of the arrow function given to [conversationsData.map]. *)
Definition transformConversation (conv : JsVal) : M JsVal :=
  let* id := read "id" conv in
  let* name := author_name conv in
  ret (obj
    [("id", id);
     ("body", prop "body" conv);
     ("body_text", prop "body_text" conv);
     ("from_email", prop "from_email" conv);
     ("to_emails", or_else (prop "to_emails" conv) (JArr []));
     ("cc_emails", or_else (prop "cc_emails" conv) (JArr []));
     ("bcc_emails", or_else (prop "bcc_emails" conv) (JArr []));
     ("created_at", prop "created_at" conv);
     ("updated_at", prop "updated_at" conv);
     ("incoming", or_else (prop "incoming" conv) (JBool false));
     ("private", or_else (prop "private" conv) (JBool false));
     ("user", obj
       [("name", name);
        ("email", or_else (or_else (prop "from_email" conv)
                                   (opt_prop "email" (prop "user" conv)))
                          (JStr ""));
        ("avatar", or_else (opt_prop "avatar" (prop "user" conv)) JNull)]);
     ("attachments", or_else (prop "attachments" conv) (JArr []))]).

Fixpoint mapM {A B} (f : A -> M B) (l : list A) : M (list B) :=
  match l with
  | [] => ret []
  | x :: rest =>
      let* y := f x in
      let* ys := mapM f rest in
      ret (y :: ys)
  end.

(** [conversationsData.map(f)] *)
Definition array_map (f : JsVal -> M JsVal) (conversationsData : JsVal) : M JsVal :=
  match conversationsData with
  | JArr l => let* l' := mapM f l in ret (JArr l')
  | JUndefined | JNull => throw (read_of_nullish conversationsData "map")
  | _ => throw (Err "TypeError" "conversationsData.map is not a function")
  end.

Definition GET (w : World) (env : Env) (params_id : string)
    : Response * list Request :=
  catch_respond
    (match as_id (parseInt params_id 0) with
     | None => ret (NextResponse_json (obj [("error", JStr "Invalid ticket ID")]) 400)
     | Some ticketId =>
         match configuration_error (freshdeskConfig env) with
         | Some response => ret response
         | None =>
             let freshdesk := new_FreshdeskAPI (freshdeskConfig env) in
             try_catch
               (let* conversationsData := getConversations w freshdesk ticketId 1 in
                let* transformedConversations :=
                  array_map transformConversation conversationsData in
                ret (NextResponse_json transformedConversations 200))
               (fun fetchError =>
                  if error_includes fetchError "404" then
                    ret (NextResponse_json
                           (obj [("error", JStr "Conversations Not Found");
                                 ("details",
                                   JStr ("No conversations found for ticket #"
                                         +:+ Number_toString ticketId
                                         +:+ " or you don't have permission to access them."));
                                 ("ticketId", JNum ticketId)])
                           404)
                  else
                    ret (NextResponse_json
                           (obj [("error", JStr "Failed to Fetch Conversations");
                                 ("details",
                                   JStr (message_or fetchError "Unknown error occurred"));
                                 ("ticketId", JNum ticketId)])
                           500))
         end
     end)
    (fun error =>
       NextResponse_json
         (obj [("error", JStr "Internal Server Error");
               ("details", JStr (message_or error "Unknown error"))])
         500).

End Conversations.

(** *** [GET /api/freshdesk/attachments/[id]?filename=] *)

Module Attachment.

(** [a || b] for two values of type [string | null]. *)
Definition opt_or (a b : option string) : option string :=
  if str_falsy a then b else a.

(** A header value may hold no NUL, LF or CR. *)
Definition valid_header_value (value : string) : bool :=
  String.eqb
    (filter_chars (fun c => (code c =? 0) || (code c =? 10) || (code c =? 13)) value)
    "".

(** [response.headers.set(name, value)] for a lower-case [name] and a
    [value] without surrounding white space. *)
Definition headers_set (name value : string) (h : gmap string string)
    : M (gmap string string) :=
  if valid_header_value value then ret (<[name := value]> h)
  else throw (Err "TypeError" "Invalid header value").

Definition GET (w : World) (env : Env) (params_id : string)
    (requestedFilename : option string) : Response * list Request :=
  catch_respond
    (match as_id (parseInt params_id 0) with
     | None =>
         ret (NextResponse_json (obj [("error", JStr "Invalid attachment ID")]) 400)
     | Some attachmentId =>
         if str_falsy (FRESHDESK_DOMAIN env) || str_falsy (FRESHDESK_API_KEY env) then
           ret (NextResponse_json
                  (obj [("error", JStr "Freshdesk configuration missing");
                        ("details",
                          JStr "FRESHDESK_DOMAIN or FRESHDESK_API_KEY not configured")])
                  500)
         else
           let freshdesk := new_FreshdeskAPI (freshdeskConfig env) in
           let* attachment := getAttachment w freshdesk attachmentId in
           let finalFilename :=
             str_or (opt_or (Some (filename attachment)) requestedFilename)
                    ("attachment_" +:+ Number_toString attachmentId) in
           let* h1 :=
             headers_set "content-disposition"
               ("attachment; filename=" +:+ String double_quote
                                             (finalFilename +:+ String double_quote ""))
               ∅ in
           let* h2 := headers_set "content-type" (contentType attachment) h1 in
           let* h3 := headers_set "cache-control" "private, max-age=3600" h2 in
           let* h4 :=
             headers_set "content-length"
               (Number_toString (Z.of_nat (String.length (blob attachment)))) h3 in
           ret {| status := 200; body := BBlob (blob attachment); headers := h4 |}
     end)
    (fun error =>
       NextResponse_json
         (obj [("error", JStr "Failed to download attachment");
               ("details", JStr (message_or error "Unknown error"));
               ("attachmentId", JStr params_id)])
         500).

End Attachment.

(** *** [GET /api/freshdesk/search?type=&q=] *)

Module Search.

(** [Promise.all([a, b])]: both computations are started, [a] first.  When
    both reject, the promise rejects with the rejection that comes first in
    time, which [second_rejects_first] tells. *)
Definition promise_all2 {A B} (second_rejects_first : bool) (a : M A) (b : M B)
    : M (A * B) :=
  match a, b with
  | (Ok x, ca), (Ok y, cb) => (Ok (x, y), ca ++ cb)
  | (Throw e, ca), (Ok _, cb) => (Throw e, ca ++ cb)
  | (Ok _, ca), (Throw e, cb) => (Throw e, ca ++ cb)
  | (Throw e1, ca), (Throw e2, cb) =>
      (Throw (if second_rejects_first then e2 else e1), ca ++ cb)
  end.

(** The ticket id that the route extracts from the query. *)
Definition extract_ticket_id (type : option string) (query : string) : option Z :=
  if bool_decide (type = Some "url") then
    match tickets_match query with
    | Some digits => parseInt digits 10
    | None => None
    end
  else if is_number_string query then parseInt query 10
  else None.

Definition GET (w : World) (second_rejects_first : bool) (env : Env)
    (q type : option string) : Response * list Request :=
  catch_respond
    (if str_falsy q then
       ret (NextResponse_json (obj [("error", JStr "Search query is required")]) 400)
     else
       let query := default "" q in
       let freshdesk := new_FreshdeskAPI (freshdeskConfig env) in
       if bool_decide (type = Some "domain") then
         try_catch
           (let searchQuery := "requester_email:*@" +:+ query in
            let* results := searchTickets w freshdesk searchQuery None in
            (* the log line reads [results.results], as the answer does *)
            let* found := read "results" results in
            ret (NextResponse_json
                   (obj [("results", or_else found (JArr []));
                         ("total", or_else (prop "total" results) (JNum 0))])
                   200))
           (fun error =>
              ret (NextResponse_json
                     (obj [("error", JStr "Failed to search tickets by domain");
                           ("details", JStr (message_or error "Unknown error"))])
                     500))
       else
         match as_id (extract_ticket_id type query) with
         | None =>
             ret (NextResponse_json
                    (obj [("error", JStr "Could not extract ticket ID from input");
                          ("details",
                            JStr "Please provide a valid ticket number or Freshdesk URL")])
                    400)
         | Some ticketId =>
             let* both :=
               promise_all2 second_rejects_first
                 (getTicket w freshdesk ticketId)
                 (getConversations w freshdesk ticketId 1) in
             (* the log line reads [ticket.subject] *)
             let* subject := read "subject" (fst both) in
             ret (NextResponse_json
                    (obj [("ticket", fst both); ("conversations", snd both)])
                    200)
         end)
    (fun error =>
       if error_includes error "not found" then
         NextResponse_json
           (obj [("error", JStr "Ticket not found");
                 ("details", JStr (message_or error "Unknown error"))])
           404
       else
         NextResponse_json
           (obj [("error", JStr "Failed to search ticket");
                 ("details", JStr (message_or error "Unknown error"))])
           500).

End Search.

End Routes.

Import Routes.

(** ** The data loader of the dashboard component *)

Module Dashboard.

(** [String(v)] *)
Fixpoint ToString (v : JsVal) : string :=
  match v with
  | JUndefined => "undefined"
  | JNull => "null"
  | JBool b => if b then "true" else "false"
  | JNum n => Number_toString n
  | JStr s => s
  | JArr l =>
      (fix join (l : list JsVal) : string :=
         match l with
         | [] => ""
         | [x] => if nullish x then "" else ToString x
         | x :: rest => (if nullish x then "" else ToString x) +:+ "," +:+ join rest
         end) l
  | JObj _ => "[object Object]"
  end.

(** [response.ok] of the response of a route. *)
Definition resp_ok (r : Response) : bool :=
  (200 <=? status r) && (status r <=? 299).

(** [await response.json()] on the response of a route. *)
Definition resp_json (r : Response) : M JsVal :=
  match body r with
  | BJson v => ret v
  | BBlob _ => throw (Err "SyntaxError" "Unexpected token in JSON")
  end.

(** [await fetch(url)] from the browser to a route of the application: the
    route runs and answers, unless the request fails in transit. *)
Definition local_fetch (w : World) (url : string) (route : Response * list Request)
    : M Response :=
  match local_failure w url with
  | Some e => throw e
  | None => (Ok (fst route), snd route)
  end.

Definition fetchTicketDetails (w : World) (env : Env) (ticketId : Z) : M JsVal :=
  let* response :=
    local_fetch w ("/api/freshdesk/tickets/" +:+ Number_toString ticketId)
      (Ticket.GET w env (Number_toString ticketId)) in
  if negb (resp_ok response) then
    let* errorData :=
      try_catch (resp_json response)
        (fun _ => ret (obj [("error", JStr "Unknown error")])) in
    if status response =? 404 then
      throw (Error ("Ticket #" +:+ Number_toString ticketId +:+ " not found"))
    else
      throw (Error (ToString
        (or_else (prop "details" errorData)
           (JStr ("Failed to fetch ticket: " +:+ reason_phrase w (status response))))))
  else resp_json response.

Definition fetchConversations (w : World) (env : Env) (ticketId : Z) : M JsVal :=
  let* response :=
    local_fetch w
      ("/api/freshdesk/tickets/" +:+ Number_toString ticketId +:+ "/conversations")
      (Conversations.GET w env (Number_toString ticketId)) in
  if negb (resp_ok response) then
    let* errorData :=
      try_catch (resp_json response)
        (fun _ => ret (obj [("error", JStr "Unknown error")])) in
    if status response =? 404 then ret (JArr [])
    else
      throw (Error (ToString
        (or_else (prop "details" errorData)
           (JStr ("Failed to fetch conversations: "
                  +:+ reason_phrase w (status response))))))
  else resp_json response.

(** The state of the hook [useFreshdeskData]. *)
Record ViewState : Type := {
  ticket : option JsVal;
  conversations : JsVal;
  loading : bool;
  error : option string
}.

Definition setTicket (t : option JsVal) (s : ViewState) : ViewState :=
  {| ticket := t; conversations := conversations s;
     loading := loading s; error := error s |}.
Definition setConversations (c : JsVal) (s : ViewState) : ViewState :=
  {| ticket := ticket s; conversations := c;
     loading := loading s; error := error s |}.
Definition setLoading (b : bool) (s : ViewState) : ViewState :=
  {| ticket := ticket s; conversations := conversations s;
     loading := b; error := error s |}.
Definition setError (e : option string) (s : ViewState) : ViewState :=
  {| ticket := ticket s; conversations := conversations s;
     loading := loading s; error := e |}.

(** The state once [loadData] has settled, and the upstream calls made. *)
Definition loadData (w : World) (env : Env) (ticketId : Z) (s : ViewState)
    : ViewState * list Request :=
  let s := setError None (setLoading true s) in
  match fetchTicketDetails w env ticketId with
  | (Ok ticketData, log1) =>
      let s := setTicket (Some ticketData) s in
      match fetchConversations w env ticketId with
      | (Ok conversationData, log2) =>
          (setLoading false (setConversations conversationData s), log1 ++ log2)
      | (Throw convError, log2) =>
          (setLoading false (setConversations (JArr []) s), log1 ++ log2)
      end
  | (Throw err, log1) =>
      (setLoading false
         (setConversations (JArr [])
            (setTicket None
               (setError (Some (message_or err "Failed to load ticket data")) s))),
       log1)
  end.

(** The effect of [useFreshdeskData] for a [ticketId : number | null]. *)
Definition useFreshdeskData (w : World) (env : Env) (ticketId : option Z)
    (s : ViewState) : ViewState * list Request :=
  match as_id ticketId with
  | None =>
      (setError None (setLoading false (setConversations (JArr []) (setTicket None s))),
       [])
  | Some id => loadData w env id s
  end.

End Dashboard.

Import Dashboard.

(** ** Sample environments, for the instances of the properties *)

Module Samples.

Definition configured : Env :=
  {| FRESHDESK_DOMAIN := Some "acme"; FRESHDESK_API_KEY := Some "secret" |}.

Definition placeholder_domain : Env :=
  {| FRESHDESK_DOMAIN := Some "your-domain"; FRESHDESK_API_KEY := Some "secret" |}.

Definition unset_domain : Env :=
  {| FRESHDESK_DOMAIN := None; FRESHDESK_API_KEY := Some "secret" |}.

Definition answer (st : Z) (text : string) (hs : gmap string string) (payload : JsVal)
    : UpResponse :=
  {| up_status := st; up_statusText := text; up_headers := hs;
     up_body := "%PDF"; up_json := Ok payload |}.

(** The upstream service answers every request with the same response. *)
Definition always (r : UpResponse) : World :=
  {| upstream := fun _ => FetchResponse r;
     local_failure := fun _ => None;
     reason_phrase := fun _ => "" |}.

Definition not_found : World := always (answer 404 "Not Found" ∅ JNull).

(** The upstream service knows the ticket and answers 404 for its
    conversations. *)
Definition ticket_without_conversations : World :=
  {| upstream := fun req =>
       if includes "/conversations" (req_url req) then
         FetchResponse (answer 404 "Not Found" ∅ JNull)
       else
         FetchResponse
           (answer 200 "OK" ∅ (obj [("id", JNum 7); ("subject", JStr "Printer")]));
     local_failure := fun _ => None;
     reason_phrase := fun _ => "" |}.

Definition initial : ViewState :=
  {| ticket := None; conversations := JArr []; loading := false; error := None |}.

(** The upstream service serves an attachment with the given headers. *)
Definition serves (hs : gmap string string) : World := always (answer 200 "OK" hs JNull).

Definition quoted_report : string :=
  "attachment; filename=" +:+ String double_quote ("report.pdf" +:+ String double_quote "").

End Samples.

(** The upstream service answers 404 to every request for conversations. *)
Definition conversations_404 (w : World) : Prop :=
  forall api n page, exists r,
    upstream w (conversations_request api n page) = FetchResponse r
    /\ up_status r = 404.

(** ** The search box: [extractTicketId] and its caller *)

Module SearchBox.

(** [s.trimEnd()], with the white space of [is_white_space]. *)
Fixpoint trim_end (s : string) : string :=
  match s with
  | EmptyString => EmptyString
  | String c s' =>
      let t := trim_end s' in
      if is_white_space c && String.eqb t "" then EmptyString else String c t
  end.

(** [s.trim()] *)
Definition trim (s : string) : string := trim_end (trim_start s).

(** The lower-case form of an ASCII letter; other characters are kept.  With
    the flag [i] a pattern letter matches exactly the characters that this
    maps to it. *)
Definition ascii_lower (c : ascii) : ascii :=
  if (65 <=? code c) && (code c <=? 90) then ascii_of_N (N_of_ascii c + 32) else c.

(** [strip_prefix], ignoring the case of ASCII letters; [p] is in lower
    case. *)
Fixpoint strip_prefix_ci (p s : string) : option string :=
  match p with
  | EmptyString => Some s
  | String a p' =>
      match s with
      | EmptyString => None
      | String b s' => if Ascii.eqb a (ascii_lower b) then strip_prefix_ci p' s' else None
      end
  end.

(** The pattern [[?&]ticket[_-]?id=(\d+)] with the flag [i], tried at the
    start of [s].  The optional character is taken when it is there: left
    out, the pattern would need an [i] in its place. *)
Definition param_match_here (s : string) : option string :=
  match s with
  | String c r =>
      if (code c =? 63) || (code c =? 38) then
        match strip_prefix_ci "ticket" r with
        | Some r1 =>
            let r2 :=
              match r1 with
              | String d r' => if (code d =? 95) || (code d =? 45) then r' else r1
              | EmptyString => r1
              end in
            match strip_prefix_ci "id" r2 with
            | Some (String "=" r3) =>
                let digits := fst (span is_digit r3) in
                if String.eqb digits "" then None else Some digits
            | _ => None
            end
        | None => None
        end
      else None
  | EmptyString => None
  end.

(** [s.match(pattern)]: group 1 of the leftmost match. *)
Fixpoint param_match (s : string) : option string :=
  match param_match_here s with
  | Some g => Some g
  | None =>
      match s with
      | EmptyString => None
      | String _ s' => param_match s'
      end
  end.

(** [extractTicketId(input)]; [None] is [null] (and [NaN], which
    [parseInt] never gives on the digits that the patterns capture). *)
Definition extractTicketId (input : string) : option Z :=
  let cleanInput := trim input in
  if is_number_string cleanInput then parseInt cleanInput 10
  else
    match tickets_match cleanInput with
    | Some digits => parseInt digits 10
    | None =>
        match param_match cleanInput with
        | Some digits => parseInt digits 10
        | None => None
        end
    end.

(** What [handleSingleTicketSearch] does with the input. *)
Inductive SearchAction : Type :=
| onTicketFound (ticketId : Z)
| alert (message : string).

Definition handleSingleTicketSearch (searchInput : string) : SearchAction :=
  match as_id (extractTicketId searchInput) with
  | Some ticketId => onTicketFound ticketId
  | None => alert "Please enter a valid ticket number or Freshdesk URL"
  end.

End SearchBox.

(** ** What the dashboard component derives from the loaded data *)

Module View.

(** [mapM] for computations that keep the elements satisfying a test. *)
Fixpoint filterM (f : JsVal -> M bool) (l : list JsVal) : M (list JsVal) :=
  match l with
  | [] => ret []
  | x :: rest =>
      let* keep := f x in
      let* kept := filterM f rest in
      ret (if keep then x :: kept else kept)
  end.

(** [conversations.filter((conv) => !conv.private)] *)
Definition publicConversations (conversations : list JsVal) : M (list JsVal) :=
  filterM (fun conv => let* p := read "private" conv in ret (negb (truthy p)))
    conversations.

(** [conversations.filter((conv) => conv.private)] *)
Definition privateNotes (conversations : list JsVal) : M (list JsVal) :=
  filterM (fun conv => let* p := read "private" conv in ret (truthy p))
    conversations.

(** [conversations.flatMap((conv) => conv.attachments)]: an array is spliced
    in, any other value is one element. *)
Fixpoint allAttachments (conversations : list JsVal) : M (list JsVal) :=
  match conversations with
  | [] => ret []
  | conv :: rest =>
      let* a := read "attachments" conv in
      let* others := allAttachments rest in
      ret (match a with
           | JArr items => items ++ others
           | _ => a :: others
           end)
  end.

(** [s.split(sep)] for a one-character separator. *)
Fixpoint split (sep : ascii) (s : string) : list string :=
  match s with
  | EmptyString => [EmptyString]
  | String c s' =>
      if Ascii.eqb c sep then EmptyString :: split sep s'
      else
        match split sep s' with
        | word :: words => String c word :: words
        | [] => [String c EmptyString]
        end
  end.

(** [n[0]] as [join] prints it: [undefined] is printed as the empty text. *)
Definition first_char (n : string) : string :=
  match n with
  | String c _ => String c EmptyString
  | EmptyString => EmptyString
  end.

(** [words.join("")] *)
Definition join (words : list string) : string :=
  fold_right String.append EmptyString words.

(** [name.split(" ").map((n) => n[0]).join("")] *)
Definition initials (name : string) : string :=
  join (map first_char (split " " name)).

(** The text of the error screen. *)
Definition errorText (error : option string) : string :=
  match error with
  | Some e =>
      if includes "not found" e then
        "The ticket you're looking for doesn't exist or you don't have permission to access it."
      else if String.eqb e "" then
        "An unexpected error occurred while loading the ticket."
      else e
  | None => "An unexpected error occurred while loading the ticket."
  end.

(** The screens of [TicketDashboard]. *)
Inductive Screen : Type :=
| SearchScreen
| LoadingScreen
| ErrorScreen (text : string)
| TicketScreen (ticket : JsVal).

(** The screen that [TicketDashboard] renders. *)
Definition screen (currentTicketId : option Z) (searchResults : list JsVal)
    (s : ViewState) : Screen :=
  if not_number currentTicketId && (Z.of_nat (length searchResults) =? 0) then
    SearchScreen
  else if loading s then LoadingScreen
  else
    match ticket s with
    | Some t =>
        if negb (str_falsy (error s)) || negb (truthy t) then
          ErrorScreen (errorText (error s))
        else TicketScreen t
    | None => ErrorScreen (errorText (error s))
    end.

End View.

(** ** Further sample worlds *)

Module Scenarios.

(** Every request is aborted by its timer. *)
Definition timing_out : World :=
  {| upstream := fun _ => FetchAbort;
     local_failure := fun _ => None;
     reason_phrase := fun _ => "" |}.

(** The upstream service rejects the credentials. *)
Definition unauthorized : World :=
  Samples.always (Samples.answer 401 "Unauthorized" ∅ JNull).

(** A gateway answers 502 with a body that tells of its own failed fetch. *)
Definition bad_gateway : World :=
  Samples.always
    {| up_status := 502; up_statusText := "Bad Gateway"; up_headers := ∅;
       up_body := "upstream fetch failed";
       up_json := Throw (Err "SyntaxError" "Unexpected token u in JSON at position 0") |}.

(** The upstream service answers every request with the given payload. *)
Definition answering (payload : JsVal) : World :=
  Samples.always (Samples.answer 200 "OK" ∅ payload).

End Scenarios.

(** * Properties *)

(** ** The primitives on examples *)

Example parseInt_12abc : parseInt "12abc" 0 = Some 12.
Proof. reflexivity. Qed.
Example parseInt_neg5 : parseInt "-5" 0 = Some (-5).
Proof. reflexivity. Qed.
Example parseInt_hex : parseInt "0x1F" 0 = Some 31.
Proof. reflexivity. Qed.
Example parseInt_abc : parseInt "abc" 0 = None.
Proof. reflexivity. Qed.
Example parseInt_ws : parseInt "  007" 0 = Some 7.
Proof. reflexivity. Qed.
Example parseInt_empty : parseInt "" 0 = None.
Proof. reflexivity. Qed.
Example parseInt_minus_zero : parseInt "-0" 0 = Some 0.
Proof. reflexivity. Qed.
Example parseInt_radix10 : parseInt "0x1F" 10 = Some 0.
Proof. reflexivity. Qed.
Example replace_first_only :
  replace ".freshdesk.com" "" "a.freshdesk.com.freshdesk.com" = "a.freshdesk.com".
Proof. reflexivity. Qed.
Example split_head_jane : split_head "@" "jane@example.com" = "jane".
Proof. reflexivity. Qed.
Example toString_neg : Number_toString (-5) = "-5".
Proof. reflexivity. Qed.


(** ** Strings *)

Section StringFacts.

Lemma append_nil_l (s : string) : "" +:+ s = s.
Proof. reflexivity. Qed.

Lemma append_cons (c : ascii) (s t : string) :
  String c s +:+ t = String c (s +:+ t).
Proof. reflexivity. Qed.

Lemma append_nil_r (s : string) : s +:+ "" = s.
Proof. induction s as [|c s IH]; [reflexivity|]. now rewrite append_cons, IH. Qed.

Lemma strip_prefix_app (p r : string) : strip_prefix p (p +:+ r) = Some r.
Proof.
  induction p as [|a p IH]; simpl; [reflexivity|].
  now rewrite Ascii.eqb_refl.
Qed.


Lemma includes_unfold (p s : string) :
  includes p s =
  match strip_prefix p s with
  | Some _ => true
  | None => match s with EmptyString => false | String _ s' => includes p s' end
  end.
Proof. destruct s; reflexivity. Qed.

Lemma replace_unfold (p r s : string) :
  replace p r s =
  match strip_prefix p s with
  | Some rest => r +:+ rest
  | None =>
      match s with
      | EmptyString => EmptyString
      | String c s' => String c (replace p r s')
      end
  end.
Proof. destruct s; reflexivity. Qed.

Lemma includes_prefix (p r : string) : includes p (p +:+ r) = true.
Proof. now rewrite includes_unfold, strip_prefix_app. Qed.

(** A string without an occurrence of the pattern is left as it is. *)
Lemma replace_absent (p r s : string) :
  includes p s = false -> replace p r s = s.
Proof.
  induction s as [|c s IH]; rewrite includes_unfold, replace_unfold;
    destruct (strip_prefix p _); try discriminate; [reflexivity|].
  intros H. now rewrite IH.
Qed.

(** When [q] starts [d +:+ p], either [q] starts [d], or [d] starts [q] and
    what is left of [q] starts [p]. *)
Lemma strip_prefix_overlap (q d p rest : string) :
  strip_prefix q (d +:+ p) = Some rest ->
  (exists d', d = q +:+ d') \/
  (exists r, q = d +:+ r /\ strip_prefix r p = Some rest).
Proof.
  revert d. induction q as [|a q IH]; intros d H.
  - left. now exists d.
  - destruct d as [|b d].
    + right. now exists (String a q).
    + simpl in H. destruct (Ascii.eqb a b) eqn:E; [|discriminate].
      apply Ascii.eqb_eq in E as ->.
      destruct (IH _ H) as [[d' ->] | (r & -> & Hr)].
      * left. now exists d'.
      * right. now exists r.
Qed.

Lemma split_head_app (sep : ascii) (a b : string) :
  includes (String sep EmptyString) a = false ->
  split_head sep (a +:+ String sep b) = a.
Proof.
  induction a as [|c a IH]; simpl.
  - now rewrite Ascii.eqb_refl.
  - rewrite (Ascii.eqb_sym c sep).
    destruct (Ascii.eqb sep c); [discriminate|].
    intros H. now rewrite IH.
Qed.

End StringFacts.

(** ** The base URL *)

Section BaseUrl.

Let suffix : string := ".freshdesk.com".

(** No proper, non-empty end of the suffix is also a start of it. *)
Lemma suffix_unbordered (d r : string) :
  suffix = d +:+ r -> d <> EmptyString -> r <> EmptyString ->
  strip_prefix r suffix = None.
Proof.
  unfold suffix. intros H Hd Hr.
  repeat (destruct d as [|? d];
          [ rewrite append_nil_l in H; try congruence; subst r; reflexivity
          | rewrite append_cons in H; try discriminate H; injection H as <- H ]).
Qed.

Lemma suffix_not_straddled (d : string) :
  includes suffix d = false -> d <> EmptyString ->
  strip_prefix suffix (d +:+ suffix) = None.
Proof.
  intros Hd Hne.
  destruct (strip_prefix suffix (d +:+ suffix)) as [rest|] eqn:E; [|reflexivity].
  apply strip_prefix_overlap in E as [[d' ->] | (r & Hq & Hr)].
  - now rewrite includes_prefix in Hd.
  - destruct r as [|c r].
    + rewrite append_nil_r in Hq. subst d. discriminate Hd.
    + now rewrite (suffix_unbordered d (String c r)) in Hr.
Qed.

Lemma replace_suffix (d : string) :
  includes suffix d = false -> replace suffix "" (d +:+ suffix) = d.
Proof.
  induction d as [|c d IH]; intros H; [reflexivity|].
  rewrite replace_unfold, suffix_not_straddled by (assumption || discriminate).
  simpl. f_equal. apply IH.
  rewrite includes_unfold in H.
  now destruct (strip_prefix suffix (String c d)).
Qed.

End BaseUrl.

(** C9.  For every domain [d] that does not contain [.freshdesk.com], the
    client built from [d] and the client built from [d] followed by
    [.freshdesk.com] have the same base URL, which is
    [https://d.freshdesk.com/api/v2]. *)
Theorem base_url_suffix_insensitive (d key1 key2 : string) :
  includes ".freshdesk.com" d = false ->
  baseUrl (new_FreshdeskAPI {| domain := d; apiKey := key1 |})
  = baseUrl (new_FreshdeskAPI {| domain := d +:+ ".freshdesk.com"; apiKey := key2 |})
  /\ baseUrl (new_FreshdeskAPI {| domain := d; apiKey := key1 |})
     = "https://" +:+ d +:+ ".freshdesk.com/api/v2".
Proof.
  intros H. unfold new_FreshdeskAPI; cbn [baseUrl domain].
  now rewrite replace_suffix, replace_absent.
Qed.

(** C9 at the domain [acme]. *)
Lemma base_url_suffix_insensitive_witness :
  includes ".freshdesk.com" "acme" = false /\
  baseUrl (new_FreshdeskAPI {| domain := "acme"; apiKey := "k" |})
  = baseUrl (new_FreshdeskAPI {| domain := "acme.freshdesk.com"; apiKey := "k" |})
  /\ baseUrl (new_FreshdeskAPI {| domain := "acme"; apiKey := "k" |})
     = "https://acme.freshdesk.com/api/v2".
Proof.
  split; [reflexivity|].
  exact (base_url_suffix_insensitive "acme" "k" "k" eq_refl).
Defined.

(** ** The normaliser of the ticket route *)

Section TicketNormaliser.

Lemma transformedTicket_total (ticketData : JsVal) :
  nullish ticketData = false ->
  exists t, Ticket.transformedTicket ticketData = (Ok t, [])
    /\ prop "status" t = JStr (Ticket.status_name ticketData)
    /\ prop "priority" t = JStr (Ticket.priority_name ticketData)
    /\ prop "agent" t =
       (if truthy (prop "responder_id" ticketData) then
          obj [("name", or_else (opt_prop "name" (prop "responder" ticketData))
                                (JStr "Unassigned"));
               ("email", or_else (opt_prop "email" (prop "responder" ticketData))
                                 (JStr ""));
               ("avatar", opt_prop "avatar" (prop "responder" ticketData))]
        else JUndefined).
Proof.
  intros H. unfold Ticket.transformedTicket, read. rewrite H.
  eexists. split; [reflexivity|]. repeat split; reflexivity.
Qed.

Lemma strict_eq_num_spec (v : JsVal) (n : Z) :
  strict_eq_num v n = true <-> v = JNum n.
Proof.
  destruct v; simpl; try (split; [discriminate|congruence]).
  rewrite Z.eqb_eq. split; congruence.
Qed.

Lemma strict_eq_num_false (v : JsVal) (n : Z) :
  v <> JNum n -> strict_eq_num v n = false.
Proof.
  intros H. destruct (strict_eq_num v n) eqn:E; [|reflexivity].
  now apply strict_eq_num_spec in E.
Qed.

End TicketNormaliser.

(** C4.  The ticket route answers a payload whose status code is 2, 3, 4 or
    5 with the status name open, pending, resolved or closed, and a payload
    whose status is any other integer, is missing, or is any other value,
    with open. *)
Theorem status_code_normalization (ticketData : JsVal) :
  nullish ticketData = false ->
  exists t, Ticket.transformedTicket ticketData = (Ok t, []) /\
    (prop "status" ticketData = JNum 2 -> prop "status" t = JStr "open") /\
    (prop "status" ticketData = JNum 3 -> prop "status" t = JStr "pending") /\
    (prop "status" ticketData = JNum 4 -> prop "status" t = JStr "resolved") /\
    (prop "status" ticketData = JNum 5 -> prop "status" t = JStr "closed") /\
    (forall n, prop "status" ticketData = JNum n ->
               n <> 2 -> n <> 3 -> n <> 4 -> n <> 5 ->
               prop "status" t = JStr "open") /\
    (prop "status" ticketData = JUndefined -> prop "status" t = JStr "open") /\
    ((forall n, prop "status" ticketData <> JNum n) -> prop "status" t = JStr "open").
Proof.
  intros H. destruct (transformedTicket_total _ H) as (t & Ht & Hs & _).
  exists t. split; [exact Ht|]. rewrite Hs. unfold Ticket.status_name.
  repeat split.
  - now intros ->.
  - now intros ->.
  - now intros ->.
  - now intros ->.
  - intros n -> ? ? ? ?. simpl.
    repeat (destruct (_ =? _) eqn:E; [apply Z.eqb_eq in E; congruence|clear E]).
    reflexivity.
  - now intros ->.
  - intros Hn. now rewrite !strict_eq_num_false by apply Hn.
Qed.

(** C4 at a payload with status code 3. *)
Lemma status_code_normalization_witness :
  let ticketData := obj [("id", JNum 1); ("status", JNum 3)] in
  exists t, Ticket.transformedTicket ticketData = (Ok t, []) /\
            prop "status" t = JStr "pending".
Proof.
  intros ticketData.
  destruct (status_code_normalization ticketData eq_refl)
    as (t & Ht & _ & H3 & _).
  exists t. split; [exact Ht|]. apply H3. reflexivity.
Defined.

(** C5.  The ticket route answers a payload whose priority code is 1, 2, 3
    or 4 with the priority name low, medium, high or urgent, and a payload
    whose priority is any other value, or is missing, with medium. *)
Theorem priority_code_normalization (ticketData : JsVal) :
  nullish ticketData = false ->
  exists t, Ticket.transformedTicket ticketData = (Ok t, []) /\
    (prop "priority" ticketData = JNum 1 -> prop "priority" t = JStr "low") /\
    (prop "priority" ticketData = JNum 2 -> prop "priority" t = JStr "medium") /\
    (prop "priority" ticketData = JNum 3 -> prop "priority" t = JStr "high") /\
    (prop "priority" ticketData = JNum 4 -> prop "priority" t = JStr "urgent") /\
    (prop "priority" ticketData <> JNum 1 -> prop "priority" ticketData <> JNum 2 ->
     prop "priority" ticketData <> JNum 3 -> prop "priority" ticketData <> JNum 4 ->
     prop "priority" t = JStr "medium") /\
    (prop "priority" ticketData = JUndefined -> prop "priority" t = JStr "medium").
Proof.
  intros H. destruct (transformedTicket_total _ H) as (t & Ht & _ & Hp & _).
  exists t. split; [exact Ht|]. rewrite Hp. unfold Ticket.priority_name.
  repeat split.
  - now intros ->.
  - now intros ->.
  - now intros ->.
  - now intros ->.
  - intros ? ? ? ?. now rewrite !strict_eq_num_false.
  - now intros ->.
Qed.

(** C5 at a payload with priority code 4. *)
Lemma priority_code_normalization_witness :
  let ticketData := obj [("id", JNum 1); ("priority", JNum 4)] in
  exists t, Ticket.transformedTicket ticketData = (Ok t, []) /\
            prop "priority" t = JStr "urgent".
Proof.
  intros ticketData.
  destruct (priority_code_normalization ticketData eq_refl)
    as (t & Ht & _ & _ & _ & H4 & _).
  exists t. split; [exact Ht|]. apply H4. reflexivity.
Defined.

(** C7.  A ticket payload whose [responder_id] is absent (missing or [null])
    is normalised to a ticket without agent sub-record.  A payload whose
    [responder_id] is present (a responder identifier: a value that
    JavaScript takes as true, such as a non-zero number) and which has no
    responder name is normalised to a ticket whose agent has the name
    Unassigned.  The agent sub-record exists exactly when [responder_id] is
    such a value. *)
Theorem agent_normalization (ticketData : JsVal) :
  nullish ticketData = false ->
  exists t, Ticket.transformedTicket ticketData = (Ok t, []) /\
    (nullish (prop "responder_id" ticketData) = true -> prop "agent" t = JUndefined) /\
    (truthy (prop "responder_id" ticketData) = true ->
     truthy (opt_prop "name" (prop "responder" ticketData)) = false ->
     prop "name" (prop "agent" t) = JStr "Unassigned") /\
    (prop "agent" t <> JUndefined <-> truthy (prop "responder_id" ticketData) = true).
Proof.
  intros H. destruct (transformedTicket_total _ H) as (t & Ht & _ & _ & Ha).
  exists t. split; [exact Ht|]. rewrite Ha. repeat split.
  - now destruct (prop "responder_id" ticketData).
  - intros -> Hname. unfold or_else at 1. rewrite Hname. reflexivity.
  - destruct (truthy (prop "responder_id" ticketData)); congruence.
  - intros ->. discriminate.
Qed.

(** C7 at a payload without [responder_id] and at a payload with
    [responder_id] 42 and no responder. *)
Lemma agent_normalization_witness :
  (exists t,
     Ticket.transformedTicket (obj [("id", JNum 1); ("subject", JStr "s")]) = (Ok t, [])
     /\ prop "agent" t = JUndefined) /\
  (exists t,
     Ticket.transformedTicket (obj [("id", JNum 1); ("responder_id", JNum 42)])
     = (Ok t, [])
     /\ prop "name" (prop "agent" t) = JStr "Unassigned").
Proof.
  split.
  - destruct (agent_normalization (obj [("id", JNum 1); ("subject", JStr "s")]) eq_refl)
      as (t & Ht & Habsent & _).
    exists t. split; [exact Ht|]. apply Habsent. reflexivity.
  - destruct (agent_normalization (obj [("id", JNum 1); ("responder_id", JNum 42)]) eq_refl)
      as (t & Ht & _ & Hpresent & _).
    exists t. split; [exact Ht|]. apply Hpresent; reflexivity.
Defined.

(** ** The normaliser of the conversations route *)

Section ConversationNormaliser.

Lemma transformConversation_name (conv name : JsVal) :
  nullish conv = false ->
  Conversations.author_name conv = (Ok name, []) ->
  exists t, Conversations.transformConversation conv = (Ok t, [])
            /\ prop "name" (prop "user" t) = name.
Proof.
  intros H Hn. unfold Conversations.transformConversation, read.
  rewrite H, Hn. eexists. split; reflexivity.
Qed.

End ConversationNormaliser.

(** C8.  The author name of a normalised conversation is the explicit user
    name when there is one; failing that, the text of the sender email before
    its first [@], when that text is not empty; failing both, Unknown. *)
Theorem author_name_resolution (conv : JsVal) :
  nullish conv = false ->
  (truthy (opt_prop "name" (prop "user" conv)) = true ->
   exists t, Conversations.transformConversation conv = (Ok t, [])
     /\ prop "name" (prop "user" t) = opt_prop "name" (prop "user" conv)) /\
  (truthy (opt_prop "name" (prop "user" conv)) = false ->
   forall local rest,
     prop "from_email" conv = JStr (local +:+ String "@" rest) ->
     includes "@" local = false -> local <> "" ->
     exists t, Conversations.transformConversation conv = (Ok t, [])
       /\ prop "name" (prop "user" t) = JStr local) /\
  (truthy (opt_prop "name" (prop "user" conv)) = false ->
   nullish (prop "from_email" conv) = true
   \/ (exists rest, prop "from_email" conv = JStr (String "@" rest))
   \/ prop "from_email" conv = JStr "" ->
   exists t, Conversations.transformConversation conv = (Ok t, [])
     /\ prop "name" (prop "user" t) = JStr "Unknown").
Proof.
  intros H. repeat split.
  - intros Hname. apply transformConversation_name; [exact H|].
    unfold Conversations.author_name. now rewrite Hname.
  - intros Hname local rest Hmail Hat Hne.
    apply transformConversation_name; [exact H|].
    unfold Conversations.author_name. rewrite Hname, Hmail.
    rewrite split_head_app by exact Hat.
    destruct local; [congruence|reflexivity].
  - intros Hname Hmail. apply transformConversation_name; [exact H|].
    unfold Conversations.author_name. rewrite Hname.
    destruct Hmail as [Hmail | [[rest ->] | ->]]; try reflexivity.
    destruct (prop "from_email" conv); try discriminate; reflexivity.
Qed.

(** C8 at a conversation sent by [jane@example.com] without user name. *)
Lemma author_name_resolution_witness :
  exists t,
    Conversations.transformConversation
      (obj [("id", JNum 1); ("from_email", JStr "jane@example.com")]) = (Ok t, [])
    /\ prop "name" (prop "user" t) = JStr "jane".
Proof.
  destruct (author_name_resolution
              (obj [("id", JNum 1); ("from_email", JStr "jane@example.com")]) eq_refl)
    as (_ & Hmail & _).
  apply (Hmail eq_refl "jane" "example.com"); [reflexivity|reflexivity|discriminate].
Defined.

(** ** The routes: identifier and configuration checks *)

(** Case analysis on the conditions of the goal. *)
Ltac break_if :=
  repeat match goal with
         | |- context [if ?b then _ else _] => destruct b
         end.

Section RouteFacts.

Context (w : World) (env : Env).

Lemma as_id_None (n : option Z) :
  as_id n = None <-> n = None \/ n = Some 0.
Proof.
  unfold as_id, not_number. destruct n as [k|].
  - destruct (k =? 0) eqn:E.
    + apply Z.eqb_eq in E as ->. now split; [right|].
    + apply Z.eqb_neq in E. split; [discriminate|]. intros [?|?]; congruence.
  - now split; [left|].
Qed.

Lemma as_id_Some (n : option Z) (k : Z) :
  as_id n = Some k <-> n = Some k /\ k <> 0.
Proof.
  unfold as_id, not_number. destruct n as [j|]; [|split; [discriminate|now intros []]].
  destruct (j =? 0) eqn:E.
  - apply Z.eqb_eq in E as ->. split; [discriminate|]. intros [[= <-] ?]. congruence.
  - apply Z.eqb_neq in E. split; [intros [= ->]; now split|now intros [-> _]].
Qed.


Lemma configuration_error_500 (cfg : FreshdeskConfig) (r : Response) :
  configuration_error cfg = Some r ->
  status r = 500 /\ exists v, body r = BJson v /\ prop "error" v = JStr "Configuration Error".
Proof.
  unfold configuration_error.
  destruct (_ || _ || _); [intros [= <-]; split; [|eexists; split]; reflexivity|].
  destruct (_ || _ || _); [intros [= <-]; split; [|eexists; split]; reflexivity|].
  discriminate.
Qed.

(** The checks fail exactly when a field is empty or is its placeholder. *)
Lemma configuration_error_iff (cfg : FreshdeskConfig) :
  configuration_error cfg <> None <->
  domain cfg = "" \/ domain cfg = "your-domain"
  \/ apiKey cfg = "" \/ apiKey cfg = "your-api-key".
Proof.
  unfold configuration_error.
  destruct (String.eqb_spec (domain cfg) "") as [->|Hd1]; simpl; [now split; [left|]|].
  destruct (String.eqb_spec (domain cfg) "your-domain") as [->|Hd2]; simpl;
    [now split; [right; left|]|].
  destruct (String.eqb_spec (apiKey cfg) "") as [->|Hk1]; simpl;
    [now split; [right; right; left|]|].
  destruct (String.eqb_spec (apiKey cfg) "your-api-key") as [->|Hk2]; simpl;
    [now split; [right; right; right|]|].
  split; [congruence|]. intros [?|[?|[?|?]]]; congruence.
Qed.

(** Every upstream operation of the client issues exactly one request. *)
Lemma getTicket_calls (api : FreshdeskAPI) (n : Z) :
  calls (getTicket w api n) = [ticket_request api n].
Proof.
  unfold getTicket, fetch, rethrow_with_context, up_read_json.
  destruct (upstream w _) as [|[name msg|shown]|r]; cbn [bind try_catch].
  - reflexivity.
  - break_if; reflexivity.
  - reflexivity.
  - destruct (negb (up_ok r)).
    + break_if; cbn; break_if; reflexivity.
    + destruct (up_json r) as [v|[name msg|shown]]; cbn [try_catch];
        break_if; reflexivity.
Qed.

Lemma getConversations_calls (api : FreshdeskAPI) (n page : Z) :
  calls (getConversations w api n page) = [conversations_request api n page].
Proof.
  unfold getConversations, fetch, rethrow_with_context, up_read_json.
  destruct (upstream w _) as [|[name msg|shown]|r]; cbn [bind try_catch].
  - reflexivity.
  - break_if; reflexivity.
  - reflexivity.
  - destruct (negb (up_ok r)).
    + break_if; cbn; break_if; reflexivity.
    + destruct (up_json r) as [v|[name msg|shown]]; cbn [try_catch];
        break_if; reflexivity.
Qed.

Lemma getAttachment_calls (api : FreshdeskAPI) (n : Z) :
  calls (getAttachment w api n) = [attachment_request api n].
Proof.
  unfold getAttachment, fetch.
  destruct (upstream w _) as [|[name msg|shown]|r]; cbn [bind try_catch].
  - reflexivity.
  - break_if; reflexivity.
  - reflexivity.
  - destruct (negb (up_ok r)); [|reflexivity].
    break_if; cbn; break_if; reflexivity.
Qed.

End RouteFacts.

(** ** The routes: what each path answers and which requests it issues *)

Section RoutePaths.

Context (w : World) (env : Env).

Lemma transformedTicket_calls (td : JsVal) : calls (Ticket.transformedTicket td) = [].
Proof. unfold Ticket.transformedTicket, read. now destruct (nullish td). Qed.

Lemma ticket_GET_invalid (id : string) :
  as_id (parseInt id 0) = None ->
  Ticket.GET w env id
  = (NextResponse_json (obj [("error", JStr "Invalid ticket ID")]) 400, []).
Proof. unfold Ticket.GET. now intros ->. Qed.

Lemma ticket_GET_misconfigured (id : string) (n : Z) (r : Response) :
  as_id (parseInt id 0) = Some n ->
  configuration_error (freshdeskConfig env) = Some r ->
  Ticket.GET w env id = (r, []).
Proof. unfold Ticket.GET. now intros -> ->. Qed.

Lemma ticket_GET_configured (id : string) (n : Z) :
  as_id (parseInt id 0) = Some n ->
  configuration_error (freshdeskConfig env) = None ->
  snd (Ticket.GET w env id) = [ticket_request (new_FreshdeskAPI (freshdeskConfig env)) n]
  /\ (status (fst (Ticket.GET w env id)) = 200
      \/ status (fst (Ticket.GET w env id)) = 404
      \/ status (fst (Ticket.GET w env id)) = 500).
Proof.
  unfold Ticket.GET. intros -> ->.
  pose proof (getTicket_calls w (new_FreshdeskAPI (freshdeskConfig env)) n) as Hc.
  destruct (getTicket _ _ _) as [[td|e] log]; cbn [calls snd] in Hc; subst log.
  - cbn [bind]. pose proof (transformedTicket_calls td) as Ht.
    destruct (Ticket.transformedTicket td) as [[t|e] log]; cbn [calls snd] in Ht; subst log.
    + cbn. auto.
    + cbn [bind try_catch catch_respond ret]. break_if; cbn; auto.
  - cbn [bind try_catch catch_respond ret]. break_if; cbn; auto.
Qed.

Lemma author_name_calls (conv : JsVal) : calls (Conversations.author_name conv) = [].
Proof.
  unfold Conversations.author_name.
  destruct (truthy _); [reflexivity|].
  now destruct (prop "from_email" conv).
Qed.

Lemma transformConversation_calls (conv : JsVal) :
  calls (Conversations.transformConversation conv) = [].
Proof.
  unfold Conversations.transformConversation, read.
  destruct (nullish conv); [reflexivity|]. cbn [bind ret].
  pose proof (author_name_calls conv) as H.
  destruct (Conversations.author_name conv) as [[name|e] log];
    cbn [calls snd] in H; now subst log.
Qed.

Lemma mapM_calls (f : JsVal -> M JsVal) (l : list JsVal) :
  (forall x, calls (f x) = []) -> calls (Conversations.mapM f l) = [].
Proof.
  intros Hf. induction l as [|x l IH]; [reflexivity|].
  cbn [Conversations.mapM]. pose proof (Hf x) as Hx.
  destruct (f x) as [[y|e] log]; cbn [calls snd] in Hx; subst log; [|reflexivity].
  cbn [bind]. destruct (Conversations.mapM f l) as [[ys|e] log];
    cbn [calls snd] in IH; now subst log.
Qed.

Lemma array_map_calls (data : JsVal) :
  calls (Conversations.array_map Conversations.transformConversation data) = [].
Proof.
  destruct data; try reflexivity. cbn [Conversations.array_map].
  pose proof (mapM_calls _ l transformConversation_calls) as H.
  destruct (Conversations.mapM _ l) as [[ys|e] log]; cbn [calls snd] in H; now subst log.
Qed.

Lemma conversations_GET_invalid (id : string) :
  as_id (parseInt id 0) = None ->
  Conversations.GET w env id
  = (NextResponse_json (obj [("error", JStr "Invalid ticket ID")]) 400, []).
Proof. unfold Conversations.GET. now intros ->. Qed.

Lemma conversations_GET_misconfigured (id : string) (n : Z) (r : Response) :
  as_id (parseInt id 0) = Some n ->
  configuration_error (freshdeskConfig env) = Some r ->
  Conversations.GET w env id = (r, []).
Proof. unfold Conversations.GET. now intros -> ->. Qed.

Lemma conversations_GET_configured (id : string) (n : Z) :
  as_id (parseInt id 0) = Some n ->
  configuration_error (freshdeskConfig env) = None ->
  snd (Conversations.GET w env id)
  = [conversations_request (new_FreshdeskAPI (freshdeskConfig env)) n 1]
  /\ ((status (fst (Conversations.GET w env id)) = 200
       /\ exists data, outcome (getConversations w (new_FreshdeskAPI (freshdeskConfig env)) n 1) = Ok data)
      \/ status (fst (Conversations.GET w env id)) = 404
      \/ status (fst (Conversations.GET w env id)) = 500).
Proof.
  unfold Conversations.GET. intros -> ->.
  pose proof (getConversations_calls w (new_FreshdeskAPI (freshdeskConfig env)) n 1) as Hc.
  destruct (getConversations _ _ _ _) as [[data|e] log]; cbn [calls snd] in Hc; subst log.
  - cbn [bind]. pose proof (array_map_calls data) as Ht.
    destruct (Conversations.array_map _ data) as [[t|e] log];
      cbn [calls snd] in Ht; subst log.
    + cbn. eauto.
    + cbn [bind try_catch catch_respond ret]. break_if; cbn; auto.
  - cbn [bind try_catch catch_respond ret]. break_if; cbn; auto.
Qed.

Lemma getConversations_404 (api : FreshdeskAPI) (n page : Z) (r : UpResponse) :
  upstream w (conversations_request api n page) = FetchResponse r ->
  up_status r = 404 ->
  exists e, outcome (getConversations w api n page) = Throw e.
Proof.
  intros Hr Hs. unfold getConversations, fetch. rewrite Hr.
  cbn [bind]. unfold up_ok. rewrite Hs. cbn. break_if; eauto.
Qed.

Lemma filter_chars_app (f : ascii -> bool) (a b : string) :
  filter_chars f (a +:+ b) = filter_chars f a +:+ filter_chars f b.
Proof.
  induction a as [|c a IH]; [reflexivity|].
  rewrite append_cons. cbn [filter_chars]. destruct (f c); now rewrite IH.
Qed.

Lemma valid_header_value_app (a b : string) :
  Attachment.valid_header_value a = true -> Attachment.valid_header_value b = true ->
  Attachment.valid_header_value (a +:+ b) = true.
Proof.
  unfold Attachment.valid_header_value. rewrite filter_chars_app.
  intros Ha%String.eqb_eq Hb%String.eqb_eq. now rewrite Ha, Hb.
Qed.

Lemma Number_toString_valid (n : Z) :
  Attachment.valid_header_value (Number_toString n) = true.
Proof.
  assert (Hu : forall d, Attachment.valid_header_value (NilEmpty.string_of_uint d) = true).
  { induction d; try reflexivity; exact IHd. }
  assert (Hz : forall d, Attachment.valid_header_value (NilZero.string_of_uint d) = true).
  { destruct d; try reflexivity; apply (Hu (_ d)). }
  unfold Number_toString. destruct (Z.to_int n); [apply Hz|apply (Hz d)].
Qed.

Lemma attachment_GET_invalid (id : string) (q : option string) :
  as_id (parseInt id 0) = None ->
  Attachment.GET w env id q
  = (NextResponse_json (obj [("error", JStr "Invalid attachment ID")]) 400, []).
Proof. unfold Attachment.GET. now intros ->. Qed.

Lemma attachment_GET_unconfigured (id : string) (q : option string) (n : Z) :
  as_id (parseInt id 0) = Some n ->
  str_falsy (FRESHDESK_DOMAIN env) || str_falsy (FRESHDESK_API_KEY env) = true ->
  Attachment.GET w env id q
  = (NextResponse_json
       (obj [("error", JStr "Freshdesk configuration missing");
             ("details", JStr "FRESHDESK_DOMAIN or FRESHDESK_API_KEY not configured")])
       500, []).
Proof. unfold Attachment.GET. now intros -> ->. Qed.

Lemma headers_set_calls (name value : string) (h : gmap string string) :
  calls (Attachment.headers_set name value h) = [].
Proof. unfold Attachment.headers_set. now destruct (Attachment.valid_header_value value). Qed.

Lemma attachment_GET_configured (id : string) (q : option string) (n : Z) :
  as_id (parseInt id 0) = Some n ->
  str_falsy (FRESHDESK_DOMAIN env) || str_falsy (FRESHDESK_API_KEY env) = false ->
  snd (Attachment.GET w env id q)
  = [attachment_request (new_FreshdeskAPI (freshdeskConfig env)) n]
  /\ (status (fst (Attachment.GET w env id q)) = 200
      \/ status (fst (Attachment.GET w env id q)) = 500).
Proof.
  unfold Attachment.GET. intros -> ->.
  pose proof (getAttachment_calls w (new_FreshdeskAPI (freshdeskConfig env)) n) as Hc.
  destruct (getAttachment _ _ _) as [[att|e] log]; cbn [calls snd] in Hc; subst log;
    [|cbn; auto].
  cbn [bind]. unfold Attachment.headers_set.
  destruct (Attachment.valid_header_value _); [|cbn; auto]. cbn [bind ret].
  destruct (Attachment.valid_header_value _); [|cbn; auto]. cbn [bind ret].
  destruct (Attachment.valid_header_value _); [|cbn; auto]. cbn [bind ret].
  destruct (Attachment.valid_header_value _); cbn; auto.
Qed.
End RoutePaths.

(** ** Identifier validation and the configuration checks *)

Section IdentifierAndConfiguration.
Context (w : World) (env : Env).

(** C2, as the code has it.  For every identifier string that
    [Number.parseInt] reads as [NaN] or as zero (no integer at its start
    after white space and a sign, or an integer equal to zero there), the
    ticket, the conversations and the attachment route answer status 400 with
    their invalid-identifier error and issue no upstream request. *)
Theorem invalid_identifier_rejected (id : string) (q : option string) :
  parseInt id 0 = None \/ parseInt id 0 = Some 0 ->
  Ticket.GET w env id
  = (NextResponse_json (obj [("error", JStr "Invalid ticket ID")]) 400, [])
  /\ Conversations.GET w env id
     = (NextResponse_json (obj [("error", JStr "Invalid ticket ID")]) 400, [])
  /\ Attachment.GET w env id q
     = (NextResponse_json (obj [("error", JStr "Invalid attachment ID")]) 400, []).
Proof.
  intros H%as_id_None. repeat split.
  - now apply ticket_GET_invalid.
  - now apply conversations_GET_invalid.
  - now apply attachment_GET_invalid.
Qed.

Lemma ticket_GET_400_iff (id : string) :
  status (fst (Ticket.GET w env id)) = 400
  <-> parseInt id 0 = None \/ parseInt id 0 = Some 0.
Proof.
  rewrite <- as_id_None. split.
  - destruct (as_id (parseInt id 0)) as [n|] eqn:Hid; [|reflexivity].
    destruct (configuration_error (freshdeskConfig env)) as [r|] eqn:Hc.
    + rewrite (ticket_GET_misconfigured w env id n r Hid Hc). cbn [fst].
      destruct (configuration_error_500 _ _ Hc) as [-> _]. discriminate.
    + destruct (ticket_GET_configured w env id n Hid Hc) as [_ [-> | [-> | ->]]]; discriminate.
  - intros H. now rewrite ticket_GET_invalid.
Qed.

Lemma conversations_GET_400_iff (id : string) :
  status (fst (Conversations.GET w env id)) = 400
  <-> parseInt id 0 = None \/ parseInt id 0 = Some 0.
Proof.
  rewrite <- as_id_None. split.
  - destruct (as_id (parseInt id 0)) as [n|] eqn:Hid; [|reflexivity].
    destruct (configuration_error (freshdeskConfig env)) as [r|] eqn:Hc.
    + rewrite (conversations_GET_misconfigured w env id n r Hid Hc). cbn [fst].
      destruct (configuration_error_500 _ _ Hc) as [-> _]. discriminate.
    + destruct (conversations_GET_configured w env id n Hid Hc)
        as [_ [[-> _] | [-> | ->]]]; discriminate.
  - intros H. now rewrite conversations_GET_invalid.
Qed.

Lemma attachment_GET_400_iff (id : string) (q : option string) :
  status (fst (Attachment.GET w env id q)) = 400
  <-> parseInt id 0 = None \/ parseInt id 0 = Some 0.
Proof.
  rewrite <- as_id_None. split.
  - destruct (as_id (parseInt id 0)) as [n|] eqn:Hid; [|reflexivity].
    destruct (str_falsy (FRESHDESK_DOMAIN env) || str_falsy (FRESHDESK_API_KEY env))
      eqn:Hc.
    + rewrite (attachment_GET_unconfigured w env id q n Hid Hc). discriminate.
    + destruct (attachment_GET_configured w env id q n Hid Hc) as [_ [-> | ->]];
        discriminate.
  - intros H. now rewrite attachment_GET_invalid.
Qed.


(** C10.  The ticket, the conversations and the attachment route answer
    status 400 exactly when [Number.parseInt] reads the identifier as [NaN]
    or as zero.  So [12abc] is read as 12 and [-5] as -5, and with a
    configuration that passes the checks both are forwarded upstream, as the
    requests for [/tickets/12] and [/tickets/-5]. *)
Theorem identifier_rejected_iff (id : string) (q : option string) :
  (status (fst (Ticket.GET w env id)) = 400
   <-> parseInt id 0 = None \/ parseInt id 0 = Some 0) /\
  (status (fst (Conversations.GET w env id)) = 400
   <-> parseInt id 0 = None \/ parseInt id 0 = Some 0) /\
  (status (fst (Attachment.GET w env id q)) = 400
   <-> parseInt id 0 = None \/ parseInt id 0 = Some 0) /\
  parseInt "12abc" 0 = Some 12 /\ parseInt "-5" 0 = Some (-5) /\
  (configuration_error (freshdeskConfig env) = None ->
   let api := new_FreshdeskAPI (freshdeskConfig env) in
   snd (Ticket.GET w env "12abc") = [ticket_request api 12]
   /\ snd (Ticket.GET w env "-5") = [ticket_request api (-5)]
   /\ snd (Conversations.GET w env "12abc") = [conversations_request api 12 1]
   /\ snd (Conversations.GET w env "-5") = [conversations_request api (-5) 1]
   /\ req_url (ticket_request api 12) = baseUrl api +:+ "/tickets/12"
   /\ req_url (ticket_request api (-5)) = baseUrl api +:+ "/tickets/-5") /\
  (str_falsy (FRESHDESK_DOMAIN env) || str_falsy (FRESHDESK_API_KEY env) = false ->
   let api := new_FreshdeskAPI (freshdeskConfig env) in
   snd (Attachment.GET w env "12abc" q) = [attachment_request api 12]
   /\ snd (Attachment.GET w env "-5" q) = [attachment_request api (-5)]
   /\ req_url (attachment_request api (-5)) = baseUrl api +:+ "/attachments/-5").
Proof.
  split; [apply ticket_GET_400_iff|].
  split; [apply conversations_GET_400_iff|].
  split; [apply attachment_GET_400_iff|].
  split; [reflexivity|]. split; [reflexivity|]. split.
  - intros Hc api. repeat split.
    + now apply ticket_GET_configured.
    + now apply ticket_GET_configured.
    + now apply conversations_GET_configured.
    + now apply conversations_GET_configured.
  - intros Hc api. repeat split.
    + now apply attachment_GET_configured.
    + now apply attachment_GET_configured.
Qed.

Lemma str_falsy_config (v : option string) :
  str_falsy v = true <-> str_or v "" = "".
Proof.
  unfold str_falsy, str_or. destruct v as [s|]; [|easy].
  destruct (String.eqb_spec s ""); [easy|]. split; [discriminate|congruence].
Qed.

(** C1, as the code has it.  With an identifier that passes validation: the
    ticket and the conversations route answer status 500 with the error
    Configuration Error, and issue no upstream request, whenever the
    configured domain or API key is empty or is its placeholder; the
    attachment route answers status 500 with its configuration error, and
    issues no upstream request, whenever the domain or the API key is unset
    or empty.  The world is arbitrary, so the answer does not depend on what
    the upstream service would say about the ticket. *)
Theorem configuration_checked_before_upstream (id : string) (q : option string) (n : Z) :
  parseInt id 0 = Some n -> n <> 0 ->
  (domain (freshdeskConfig env) = "" \/ domain (freshdeskConfig env) = "your-domain"
   \/ apiKey (freshdeskConfig env) = "" \/ apiKey (freshdeskConfig env) = "your-api-key" ->
   exists r v,
     Ticket.GET w env id = (r, []) /\ Conversations.GET w env id = (r, [])
     /\ status r = 500 /\ body r = BJson v
     /\ prop "error" v = JStr "Configuration Error") /\
  (domain (freshdeskConfig env) = "" \/ apiKey (freshdeskConfig env) = "" ->
   exists r v,
     Attachment.GET w env id q = (r, [])
     /\ status r = 500 /\ body r = BJson v
     /\ prop "error" v = JStr "Freshdesk configuration missing").
Proof.
  intros Hid Hn. assert (Hid' : as_id (parseInt id 0) = Some n) by now apply as_id_Some.
  split.
  - intros Hbad%configuration_error_iff.
    destruct (configuration_error (freshdeskConfig env)) as [r|] eqn:Hc; [|congruence].
    destruct (configuration_error_500 _ _ Hc) as (Hs & v & Hb & Hv).
    exists r, v. repeat split; try assumption.
    + now apply ticket_GET_misconfigured with n.
    + now apply conversations_GET_misconfigured with n.
  - intros Hbad. eexists _, _. split.
    + apply attachment_GET_unconfigured with n; [exact Hid'|].
      apply orb_true_iff.
      destruct Hbad as [H|H]; [left|right]; now apply str_falsy_config.
    + repeat split; reflexivity.
Qed.
End IdentifierAndConfiguration.

(** C10 with a configuration that passes the checks. *)
Lemma identifier_rejected_iff_witness :
  snd (Ticket.GET Samples.not_found Samples.configured "12abc")
  = [ticket_request (new_FreshdeskAPI (freshdeskConfig Samples.configured)) 12]
  /\ req_url (ticket_request (new_FreshdeskAPI (freshdeskConfig Samples.configured)) (-5))
     = "https://acme.freshdesk.com/api/v2/tickets/-5".
Proof.
  destruct (identifier_rejected_iff Samples.not_found Samples.configured "7" None)
    as (_ & _ & _ & _ & _ & H & _).
  destruct (H eq_refl) as (H12 & _ & _ & _ & _ & H5).
  split; [exact H12|exact H5].
Defined.

(** The amended C2 at the identifier [abc]. *)
Lemma invalid_identifier_rejected_witness :
  (parseInt "abc" 0 = None \/ parseInt "abc" 0 = Some 0) /\
  Ticket.GET Samples.not_found Samples.configured "abc"
  = (NextResponse_json (obj [("error", JStr "Invalid ticket ID")]) 400, []).
Proof.
  split; [left; reflexivity|].
  apply (invalid_identifier_rejected Samples.not_found Samples.configured "abc" None).
  left; reflexivity.
Defined.

(** C2 fails as stated.  The identifier [12abc] is not a number (it does not
    pass the test for a ticket number of the search route, and is not numeric
    for JavaScript either), yet the ticket route answers 200 and asks upstream
    for ticket 12, and the attachment route answers 200 and asks upstream for
    attachment 12. *)
Lemma non_numeric_identifier_accepted :
  is_number_string "12abc" = false
  /\ status (fst (Ticket.GET Samples.ticket_without_conversations
                    Samples.configured "12abc")) = 200
  /\ (exists req,
        snd (Ticket.GET Samples.ticket_without_conversations
               Samples.configured "12abc") = [req]
        /\ req_url req = "https://acme.freshdesk.com/api/v2/tickets/12")
  /\ status (fst (Attachment.GET (Samples.serves ∅) Samples.configured "12abc" None))
     = 200
  /\ (exists req,
        snd (Attachment.GET (Samples.serves ∅) Samples.configured "12abc" None) = [req]
        /\ req_url req = "https://acme.freshdesk.com/api/v2/attachments/12").
Proof.
  split; [reflexivity|]. split; [reflexivity|].
  split; [eexists; split; reflexivity|].
  split; [reflexivity|]. eexists; split; reflexivity.
Qed.

(** The amended C1 at ticket 7 with the placeholder domain, in a world where
    the upstream service would answer 404. *)
Lemma configuration_checked_before_upstream_witness :
  exists r v,
    Ticket.GET Samples.not_found Samples.placeholder_domain "7" = (r, [])
    /\ Conversations.GET Samples.not_found Samples.placeholder_domain "7" = (r, [])
    /\ status r = 500 /\ body r = BJson v
    /\ prop "error" v = JStr "Configuration Error".
Proof.
  apply (configuration_checked_before_upstream
           Samples.not_found Samples.placeholder_domain "7" None 7 eq_refl).
  - discriminate.
  - right; left; reflexivity.
Defined.

(** C1 fails as stated.  With the placeholder domain configured: an
    identifier that fails validation is answered 400 by the ticket, the
    conversations and the attachment route, not with a configuration error;
    the attachment route, which only checks that the variables are set,
    issues its upstream request; and the search route, which checks nothing,
    issues its upstream request to the placeholder host. *)
Lemma configuration_not_checked_first :
  (domain (freshdeskConfig Samples.placeholder_domain) = "your-domain"
   /\ status (fst (Ticket.GET Samples.not_found Samples.placeholder_domain "abc")) = 400
   /\ status (fst (Conversations.GET Samples.not_found Samples.placeholder_domain "abc")) = 400
   /\ status (fst (Attachment.GET Samples.not_found Samples.placeholder_domain "abc" None)) = 400)
  /\ (snd (Attachment.GET Samples.not_found Samples.placeholder_domain "7" None)
      = [attachment_request
           (new_FreshdeskAPI (freshdeskConfig Samples.placeholder_domain)) 7])
  /\ (exists req,
        snd (Search.GET Samples.not_found false Samples.placeholder_domain
               (Some "example.com") (Some "domain")) = [req]
        /\ req_url req = "https://your-domain.freshdesk.com/api/v2/search/tickets").
Proof.
  split; [|split].
  - repeat split; reflexivity.
  - reflexivity.
  - eexists. split; reflexivity.
Defined.

(** ** The file name of a proxied attachment *)

Section AttachmentFilename.

Import Attachment.
Context (w : World) (env : Env).

Lemma getAttachment_ok (api : FreshdeskAPI) (n : Z) (r : UpResponse) :
  upstream w (attachment_request api n) = FetchResponse r ->
  up_ok r = true ->
  getAttachment w api n
  = (Ok {| blob := up_body r;
           contentType :=
             str_or (up_headers r !! "content-type") "application/octet-stream";
           filename :=
             match filename_match (str_or (up_headers r !! "content-disposition") "") with
             | Some g => filter_chars (fun c => negb (is_quote c)) g
             | None => "attachment_" +:+ Number_toString n
             end |},
     [attachment_request api n]).
Proof.
  intros Hr Hok. unfold getAttachment, fetch. rewrite Hr. cbn [bind].
  rewrite Hok. reflexivity.
Qed.

Lemma attachment_GET_served (id : string) (q : option string) (n : Z) (r : UpResponse)
    (name : string) :
  as_id (parseInt id 0) = Some n ->
  str_falsy (FRESHDESK_DOMAIN env) || str_falsy (FRESHDESK_API_KEY env) = false ->
  upstream w (attachment_request (new_FreshdeskAPI (freshdeskConfig env)) n)
  = FetchResponse r ->
  up_ok r = true ->
  valid_header_value
    (str_or (up_headers r !! "content-type") "application/octet-stream") = true ->
  str_or
    (opt_or
       (Some match filename_match (str_or (up_headers r !! "content-disposition") "") with
             | Some g => filter_chars (fun c => negb (is_quote c)) g
             | None => "attachment_" +:+ Number_toString n
             end) q)
    ("attachment_" +:+ Number_toString n) = name ->
  valid_header_value name = true ->
  status (fst (Attachment.GET w env id q)) = 200
  /\ headers (fst (Attachment.GET w env id q)) !! "content-disposition"
     = Some ("attachment; filename=" +:+ String double_quote
                                           (name +:+ String double_quote "")).
Proof.
  intros Hid Hc Hr Hok Hct Hname Hvalid.
  unfold Attachment.GET. rewrite Hid, Hc, (getAttachment_ok _ _ _ Hr Hok).
  cbn [bind blob contentType filename]. rewrite Hname.
  unfold headers_set.
  rewrite valid_header_value_app; cycle 1.
  { reflexivity. }
  { change (String double_quote (name +:+ String double_quote ""))
      with (String double_quote "" +:+ (name +:+ String double_quote "")).
    repeat apply valid_header_value_app; (assumption || reflexivity). }
  cbn [bind ret]. rewrite Hct. cbn [bind ret].
  change (valid_header_value "private, max-age=3600") with true. cbn [bind ret].
  rewrite Number_toString_valid. cbn [bind ret catch_respond fst status headers app].
  split; [reflexivity|].
  rewrite !lookup_insert_ne by discriminate. apply lookup_insert_eq.
Qed.

(** C6, the case the code misses.  When the upstream response carries no
    content-disposition header, the attachment route names the download
    [attachment_{id}] whatever file name the query string gives: the client
    has already put the synthesized name in place of the missing one, so the
    route never falls back to the query string. *)
Theorem attachment_query_filename_shadowed (id : string) (q : option string)
    (n : Z) (r : UpResponse) :
  parseInt id 0 = Some n -> n <> 0 ->
  str_falsy (FRESHDESK_DOMAIN env) || str_falsy (FRESHDESK_API_KEY env) = false ->
  upstream w (attachment_request (new_FreshdeskAPI (freshdeskConfig env)) n)
  = FetchResponse r ->
  up_ok r = true ->
  valid_header_value
    (str_or (up_headers r !! "content-type") "application/octet-stream") = true ->
  up_headers r !! "content-disposition" = None ->
  status (fst (Attachment.GET w env id q)) = 200
  /\ headers (fst (Attachment.GET w env id q)) !! "content-disposition"
     = Some ("attachment; filename=" +:+ String double_quote
               (("attachment_" +:+ Number_toString n) +:+ String double_quote "")).
Proof.
  intros Hid Hn Hc Hr Hok Hct Hcd.
  apply attachment_GET_served with n r; try assumption.
  - now apply as_id_Some.
  - rewrite Hcd. reflexivity.
  - apply valid_header_value_app; [reflexivity|apply Number_toString_valid].
Qed.

End AttachmentFilename.

(** C6 at its failing input: attachment 7, [?filename=report.pdf], no
    content-disposition header upstream. *)
Lemma attachment_query_filename_shadowed_witness :
  headers (fst (Attachment.GET (Samples.serves ∅) Samples.configured "7"
                  (Some "report.pdf"))) !! "content-disposition"
  = Some ("attachment; filename=" +:+ String double_quote
            ("attachment_7" +:+ String double_quote "")).
Proof.
  apply (attachment_query_filename_shadowed (Samples.serves ∅) Samples.configured
           "7" (Some "report.pdf") 7 (Samples.answer 200 "OK" ∅ JNull));
    (reflexivity || discriminate).
Defined.

(** The cases of C6 that hold: a quoted or an unquoted file name in the
    header is used; with no header and no query string the name is
    synthesized.  The query string is used only when the header carries an
    empty file name. *)
Lemma attachment_header_filename :
  (forall q,
     headers (fst (Attachment.GET
                     (Samples.serves {[ "content-disposition" := Samples.quoted_report ]})
                     Samples.configured "7" q)) !! "content-disposition"
     = Some Samples.quoted_report) /\
  (forall q,
     headers (fst (Attachment.GET
                     (Samples.serves
                        {[ "content-disposition" := "attachment; filename=report.pdf" ]})
                     Samples.configured "7" q)) !! "content-disposition"
     = Some Samples.quoted_report) /\
  headers (fst (Attachment.GET (Samples.serves ∅) Samples.configured "7" None))
    !! "content-disposition"
  = Some ("attachment; filename=" +:+ String double_quote
            ("attachment_7" +:+ String double_quote "")) /\
  headers (fst (Attachment.GET
                  (Samples.serves {[ "content-disposition" := "attachment; filename=" ]})
                  Samples.configured "7" (Some "notes.txt"))) !! "content-disposition"
  = Some ("attachment; filename=" +:+ String double_quote
            ("notes.txt" +:+ String double_quote "")).
Proof.
  repeat split; try intros q; reflexivity.
Qed.

(** ** The data loader of the dashboard *)

Section DashboardLoader.
Context (w : World) (env : Env).

Lemma conversations_GET_upstream_404 (id : string) :
  conversations_404 w ->
  status (fst (Conversations.GET w env id)) = 400
  \/ status (fst (Conversations.GET w env id)) = 404
  \/ status (fst (Conversations.GET w env id)) = 500.
Proof.
  intros H404.
  destruct (as_id (parseInt id 0)) as [n|] eqn:Hid.
  - destruct (configuration_error (freshdeskConfig env)) as [r|] eqn:Hc.
    + rewrite (conversations_GET_misconfigured w env id n r Hid Hc). cbn [fst].
      destruct (configuration_error_500 _ _ Hc) as [-> _]. auto.
    + destruct (conversations_GET_configured w env id n Hid Hc)
        as [_ [[_ [data Hdata]] | [-> | ->]]]; auto.
      destruct (H404 (new_FreshdeskAPI (freshdeskConfig env)) n 1) as (r & Hr & Hs).
      destruct (getConversations_404 w _ _ _ r Hr Hs) as [e He]. congruence.
  - rewrite conversations_GET_invalid by assumption. auto.
Qed.

Lemma fetchConversations_upstream_404 (ticketId : Z) :
  conversations_404 w ->
  outcome (fetchConversations w env ticketId) = Ok (JArr [])
  \/ exists e, outcome (fetchConversations w env ticketId) = Throw e.
Proof.
  intros H404. unfold fetchConversations, local_fetch.
  destruct (local_failure w _); [right; eexists; reflexivity|].
  pose proof (conversations_GET_upstream_404 (Number_toString ticketId) H404) as Hs.
  destruct (Conversations.GET w env (Number_toString ticketId)) as [response log].
  cbn [fst snd] in *. cbn [bind]. unfold resp_ok.
  destruct Hs as [-> | [-> | ->]]; cbn [Z.leb Z.eqb Z.compare Pos.compare Pos.compare_cont andb negb Pos.eqb];
    destruct (resp_json response) as [[v|e] log']; cbn; eauto.
Qed.

(** C3.  When the upstream service answers 404 to the request for
    conversations, the conversations of the dashboard view are the empty
    list.  Whenever the ticket itself was fetched, the view shows it, without
    error, whatever happened to the conversations; if their fetch failed,
    they are the empty list. *)
Theorem conversations_failure_degrades (ticketId : Z) (s : ViewState) :
  (conversations_404 w ->
   conversations (fst (loadData w env ticketId s)) = JArr []) /\
  (forall t log,
     fetchTicketDetails w env ticketId = (Ok t, log) ->
     ticket (fst (loadData w env ticketId s)) = Some t
     /\ error (fst (loadData w env ticketId s)) = None
     /\ loading (fst (loadData w env ticketId s)) = false
     /\ (forall e log',
           fetchConversations w env ticketId = (Throw e, log') ->
           conversations (fst (loadData w env ticketId s)) = JArr [])).
Proof.
  split.
  - intros H404. unfold loadData.
    destruct (fetchTicketDetails w env ticketId) as [[t|e] log]; [|reflexivity].
    destruct (fetchConversations_upstream_404 ticketId H404) as [H | [e H]];
      destruct (fetchConversations w env ticketId) as [[c|e'] log'];
      cbn [outcome fst] in H; try discriminate; try reflexivity.
    now injection H as ->.
  - intros t log Ht. unfold loadData. rewrite Ht.
    destruct (fetchConversations w env ticketId) as [[c|e'] log'];
      repeat split; try reflexivity; discriminate.
Qed.
End DashboardLoader.

Lemma includes_app_r (p a s : string) :
  includes p s = true -> includes p (a +:+ s) = true.
Proof.
  intros H. induction a as [|c a IH]; [exact H|].
  rewrite append_cons, includes_unfold.
  now destruct (strip_prefix p _).
Qed.

(** C3 in a world where the ticket exists and its conversations are
    answered 404. *)
Lemma conversations_failure_degrades_witness :
  conversations_404 Samples.ticket_without_conversations /\
  (exists t,
     ticket (fst (loadData Samples.ticket_without_conversations Samples.configured 7
                    Samples.initial)) = Some t
     /\ prop "subject" t = JStr "Printer") /\
  error (fst (loadData Samples.ticket_without_conversations Samples.configured 7
                Samples.initial)) = None /\
  conversations (fst (loadData Samples.ticket_without_conversations Samples.configured 7
                        Samples.initial)) = JArr [].
Proof.
  assert (H404 : conversations_404 Samples.ticket_without_conversations).
  { intros api n page. eexists.
    unfold Samples.ticket_without_conversations, conversations_request, authed_request.
    cbn [upstream req_url].
    rewrite includes_app_r; [split; reflexivity|].
    do 2 apply includes_app_r.
    exact (includes_prefix "/conversations"
             ("?page=" +:+ Number_toString page +:+ "&per_page=100")). }
  destruct (conversations_failure_degrades Samples.ticket_without_conversations
              Samples.configured 7 Samples.initial) as [Hempty Hview].
  split; [exact H404|].
  destruct (fetchTicketDetails Samples.ticket_without_conversations Samples.configured 7)
    as [[t|e] log] eqn:Ht; [|discriminate Ht].
  destruct (Hview t log eq_refl) as (Hticket & Herror & _).
  split; [|split; [exact Herror|exact (Hempty H404)]].
  exists t. split; [exact Hticket|].
  injection Ht as <- _. reflexivity.
Defined.

(** What the routes make of an upstream 404 depends on the digits of the
    ticket number: the client's message holds no status code, and the routes
    look for the text 404 in it.  The dashboard view is the same either way. *)
Example conversations_route_upstream_404 :
  status (fst (Conversations.GET Samples.not_found Samples.configured "7")) = 500
  /\ status (fst (Conversations.GET Samples.not_found Samples.configured "404")) = 404
  /\ conversations
       (fst (loadData Samples.ticket_without_conversations Samples.configured 404
               Samples.initial)) = JArr [].
Proof. repeat split; reflexivity. Qed.

(** The search route, which the dashboard view does not use for a single
    ticket, awaits both fetches together: there a failure of the
    conversations fails the combined response. *)
Example search_route_conversations_404 :
  status (fst (Search.GET Samples.ticket_without_conversations false Samples.configured
                 (Some "7") (Some "number"))) = 404.
Proof. reflexivity. Qed.

(** * Further properties of the code *)

(** ** Numbers and their decimal text *)

Section DecimalRoundTrip.

Lemma read_digits_step (R : Z) (c : ascii) (s : string) (acc : option Z) (d : Z) :
  digit_value c = Some d -> (d <? R) = true ->
  read_digits R (String c s) acc = read_digits R s (Some (R * default 0 acc + d)).
Proof. intros Hd HR. cbn [read_digits]. now rewrite Hd, HR. Qed.




Lemma span_all_cons (f : ascii -> bool) (c : ascii) (s : string) :
  fst (span f (String c s)) = String c s -> f c = true /\ fst (span f s) = s.
Proof.
  cbn [span]. destruct (f c); [|discriminate].
  destruct (span f s) as [a b]. cbn. now intros [= ->].
Qed.

(** On a string of decimal digits [parseInt], with the radix omitted or 10,
    skips nothing and reads all of it. *)
Lemma parseInt_digit_string (s : string) (radix : Z) :
  radix = 0 \/ radix = 10 -> s <> "" -> fst (span is_digit s) = s ->
  parseInt s radix = read_digits 10 s None.
Proof.
  intros Hr Hne Hs. destruct s as [|c rest]; [congruence|].
  apply span_all_cons in Hs as [Hc Hrest].
  assert (Hmul : forall o : option Z,
             match o with None => None | Some m => Some (1 * m) end = o).
  { intros [m|]; [|reflexivity]. now destruct m. }
  destruct Hr as [-> | ->].
  - destruct c as [[] [] [] [] [] [] [] []]; try discriminate Hc;
      try (unfold parseInt; cbn -[read_digits Z.mul]; apply Hmul).
    destruct rest as [|c2 rest2]; [reflexivity|].
    apply span_all_cons in Hrest as [Hc2 _].
    destruct c2 as [[] [] [] [] [] [] [] []]; try discriminate Hc2;
      unfold parseInt; cbn -[read_digits Z.mul]; apply Hmul.
  - destruct c as [[] [] [] [] [] [] [] []]; try discriminate Hc;
      unfold parseInt; cbn -[read_digits Z.mul]; apply Hmul.
Qed.





End DecimalRoundTrip.

(** ** Where a text can occur in a message *)

Section Occurrences.




(** A pattern does not start in a text that lacks its first character. *)
Lemma includes_no_first (a : ascii) (p s t : string) :
  filter_chars (Ascii.eqb a) s = "" ->
  includes (String a p) (s +:+ t) = includes (String a p) t.
Proof.
  induction s as [|c s IH]; intros Hs; [reflexivity|].
  cbn [filter_chars] in Hs. destruct (Ascii.eqb a c) eqn:E; [discriminate|].
  rewrite append_cons, includes_unfold. cbn [strip_prefix]. rewrite E. now apply IH.
Qed.

(** The decimal text of an integer is made of digits and a minus sign. *)
Lemma Number_toString_chars (f : ascii -> bool) (n : Z) :
  (forall c, f c = true -> is_digit c || Ascii.eqb c "-" = false) ->
  filter_chars f (Number_toString n) = "".
Proof.
  intros Hf.
  assert (Hc : forall c, is_digit c || Ascii.eqb c "-" = true -> f c = false).
  { intros c Hc. destruct (f c) eqn:E; [|reflexivity]. apply Hf in E. congruence. }
  assert (Hu : forall d, filter_chars f (NilEmpty.string_of_uint d) = "").
  { induction d; cbn [NilEmpty.string_of_uint filter_chars]; [reflexivity|..];
      now rewrite Hc. }
  assert (Hz : forall d, filter_chars f (NilZero.string_of_uint d) = "").
  { destruct d; try apply (Hu (_ d)). cbn. now rewrite Hc. }
  unfold Number_toString. destruct (Z.to_int n); cbn [NilZero.string_of_int];
    [apply Hz|]. cbn [filter_chars]. rewrite Hc by reflexivity. apply Hz.
Qed.


Lemma not_found_message_no_fetch_failed (n : Z) (rest : string) :
  includes "fetch failed" ("Ticket #" +:+ Number_toString n +:+ rest)
  = includes "fetch failed" rest.
Proof.
  rewrite (includes_no_first "f" "etch failed" "Ticket #") by reflexivity.
  apply includes_no_first, Number_toString_chars.
  intros c Hc%Ascii.eqb_eq. now subst c.
Qed.

End Occurrences.

(** ** How the routes report what the upstream service answers *)

Section UpstreamFailures.

Context (w : World) (env : Env).

Lemma getTicket_404 (api : FreshdeskAPI) (n : Z) (r : UpResponse) :
  upstream w (ticket_request api n) = FetchResponse r ->
  up_status r = 404 ->
  getTicket w api n
  = (Throw (Error ("Ticket #" +:+ Number_toString n +:+ " not found")),
     [ticket_request api n]).
Proof.
  intros Hr Hs. unfold getTicket, fetch. rewrite Hr. cbn [bind].
  unfold up_ok. rewrite Hs. cbn [Z.leb Z.compare Pos.compare Pos.compare_cont
                                   andb negb Z.eqb Pos.eqb].
  cbn [throw try_catch Error rethrow_with_context].
  change (String.eqb "Error" "AbortError") with false. cbn iota.
  now rewrite not_found_message_no_fetch_failed.
Qed.

Lemma getConversations_404_message (api : FreshdeskAPI) (n page : Z) (r : UpResponse) :
  upstream w (conversations_request api n page) = FetchResponse r ->
  up_status r = 404 ->
  getConversations w api n page
  = (Throw (Error ("Ticket #" +:+ Number_toString n
                   +:+ " not found or no conversations available")),
     [conversations_request api n page]).
Proof.
  intros Hr Hs. unfold getConversations, fetch. rewrite Hr. cbn [bind].
  unfold up_ok. rewrite Hs. cbn [Z.leb Z.compare Pos.compare Pos.compare_cont
                                   andb negb Z.eqb Pos.eqb].
  cbn [throw try_catch Error rethrow_with_context].
  change (String.eqb "Error" "AbortError") with false. cbn iota.
  now rewrite not_found_message_no_fetch_failed.
Qed.



End UpstreamFailures.



(** ** The dashboard loader, end to end *)



Section DashboardEndToEnd.

Context (w : World) (env : Env).





(** X5.  However it ends, [loadData] leaves the loading flag down and one of
    two states: a ticket and no error, or an error, no ticket and no
    conversations.  The state does not depend on the state before, and the
    conversations are not asked for when the ticket could not be fetched. *)
Theorem loadData_settled (n : Z) (s s0 : ViewState) :
  loading (fst (loadData w env n s)) = false
  /\ ((exists t, ticket (fst (loadData w env n s)) = Some t
                 /\ error (fst (loadData w env n s)) = None)
      \/ (ticket (fst (loadData w env n s)) = None
          /\ (exists e, error (fst (loadData w env n s)) = Some e)
          /\ conversations (fst (loadData w env n s)) = JArr []
          /\ snd (loadData w env n s) = snd (fetchTicketDetails w env n)))
  /\ loadData w env n s = loadData w env n s0.
Proof.
  unfold loadData.
  destruct (fetchTicketDetails w env n) as [[t|e] log].
  - destruct (fetchConversations w env n) as [[c|e] log'];
      (split; [reflexivity|split; [left; eexists; split; reflexivity|reflexivity]]).
  - split; [reflexivity|split; [right|reflexivity]].
    repeat split; try reflexivity. eexists; reflexivity.
Qed.

End DashboardEndToEnd.



(** ** What the routes answer, and when *)

Section RouteAnswers.

Context (w : World) (env : Env).

Lemma getTicket_Ok (api : FreshdeskAPI) (n : Z) (v : JsVal) :
  outcome (getTicket w api n) = Ok v ->
  exists r, upstream w (ticket_request api n) = FetchResponse r
            /\ up_ok r = true /\ up_json r = Ok v.
Proof.
  unfold getTicket, fetch, rethrow_with_context, up_read_json.
  destruct (upstream w _) as [|[name msg|shown]|r]; cbn [bind try_catch].
  - break_if; discriminate.
  - break_if; discriminate.
  - discriminate.
  - destruct (up_ok r) eqn:Hok; cbn [negb].
    + destruct (up_json r) as [v'|[name msg|shown]] eqn:Hj; cbn [try_catch].
      * intros [= <-]. eauto.
      * break_if; discriminate.
      * discriminate.
    + break_if; cbn; break_if; discriminate.
Qed.

Lemma getConversations_Ok (api : FreshdeskAPI) (n page : Z) (v : JsVal) :
  outcome (getConversations w api n page) = Ok v ->
  exists r, upstream w (conversations_request api n page) = FetchResponse r
            /\ up_ok r = true /\ up_json r = Ok v.
Proof.
  unfold getConversations, fetch, rethrow_with_context, up_read_json.
  destruct (upstream w _) as [|[name msg|shown]|r]; cbn [bind try_catch].
  - break_if; discriminate.
  - break_if; discriminate.
  - discriminate.
  - destruct (up_ok r) eqn:Hok; cbn [negb].
    + destruct (up_json r) as [v'|[name msg|shown]] eqn:Hj; cbn [try_catch].
      * intros [= <-]. eauto.
      * break_if; discriminate.
      * discriminate.
    + break_if; cbn; break_if; discriminate.
Qed.

Lemma getAttachment_Ok (api : FreshdeskAPI) (n : Z) (a : AttachmentData) :
  outcome (getAttachment w api n) = Ok a ->
  exists r, upstream w (attachment_request api n) = FetchResponse r
            /\ up_ok r = true /\ blob a = up_body r.
Proof.
  unfold getAttachment, fetch.
  destruct (upstream w _) as [|[name msg|shown]|r]; cbn [bind try_catch].
  - break_if; discriminate.
  - break_if; discriminate.
  - discriminate.
  - destruct (up_ok r) eqn:Hok; cbn [negb].
    + intros [= <-]. eauto.
    + break_if; cbn; break_if; discriminate.
Qed.

Lemma ticket_GET_200 (id : string) :
  status (fst (Ticket.GET w env id)) = 200 ->
  exists n r,
    as_id (parseInt id 0) = Some n
    /\ upstream w (ticket_request (new_FreshdeskAPI (freshdeskConfig env)) n)
       = FetchResponse r
    /\ up_ok r = true.
Proof.
  destruct (as_id (parseInt id 0)) as [n|] eqn:Hid;
    [|rewrite ticket_GET_invalid by assumption; discriminate].
  destruct (configuration_error (freshdeskConfig env)) as [r|] eqn:Hc.
  { rewrite (ticket_GET_misconfigured w env id n r Hid Hc). cbn [fst].
    destruct (configuration_error_500 _ _ Hc) as [-> _]. discriminate. }
  unfold Ticket.GET. rewrite Hid, Hc.
  destruct (getTicket _ _ _) as [[td|e] log] eqn:Hg.
  - intros _. destruct (getTicket_Ok (new_FreshdeskAPI (freshdeskConfig env)) n td) as (r & Hr & Hok & _);
      [now rewrite Hg|]. eauto.
  - cbn [bind try_catch catch_respond ret]. break_if; discriminate.
Qed.

Lemma attachment_GET_200 (id : string) (q : option string) :
  status (fst (Attachment.GET w env id q)) = 200 ->
  exists n r,
    as_id (parseInt id 0) = Some n
    /\ upstream w (attachment_request (new_FreshdeskAPI (freshdeskConfig env)) n)
       = FetchResponse r
    /\ up_ok r = true
    /\ body (fst (Attachment.GET w env id q)) = BBlob (up_body r).
Proof.
  destruct (as_id (parseInt id 0)) as [n|] eqn:Hid;
    [|rewrite attachment_GET_invalid by assumption; discriminate].
  destruct (str_falsy (FRESHDESK_DOMAIN env) || str_falsy (FRESHDESK_API_KEY env))
    eqn:Hc.
  { rewrite (attachment_GET_unconfigured w env id q n Hid Hc). discriminate. }
  unfold Attachment.GET. rewrite Hid, Hc.
  destruct (getAttachment _ _ _) as [[att|e] log] eqn:Hg; [|discriminate].
  destruct (getAttachment_Ok (new_FreshdeskAPI (freshdeskConfig env)) n att) as (r & Hr & Hok & Hb); [now rewrite Hg|].
  cbn [bind]. unfold Attachment.headers_set.
  repeat (destruct (Attachment.valid_header_value _); [cbn [bind ret]|discriminate]).
  cbn. intros _. exists n, r. now rewrite Hb.
Qed.

(** X6.  Each of the three routes with an identifier answers with one of its
    statuses (the attachment route never with 404) and issues at most one
    upstream request.  A route answers 200 only after the upstream service
    has answered its request with a success status; the attachment route
    then hands on the upstream body. *)
Theorem route_answers (id : string) (q : option string) :
  (In (status (fst (Ticket.GET w env id))) [200; 400; 404; 500]
   /\ (length (snd (Ticket.GET w env id)) <= 1)%nat
   /\ (status (fst (Ticket.GET w env id)) = 200 ->
       exists n r,
         parseInt id 0 = Some n
         /\ upstream w (ticket_request (new_FreshdeskAPI (freshdeskConfig env)) n)
            = FetchResponse r
         /\ up_ok r = true)) /\
  (In (status (fst (Conversations.GET w env id))) [200; 400; 404; 500]
   /\ (length (snd (Conversations.GET w env id)) <= 1)%nat
   /\ (status (fst (Conversations.GET w env id)) = 200 ->
       exists n r,
         parseInt id 0 = Some n
         /\ upstream w
              (conversations_request (new_FreshdeskAPI (freshdeskConfig env)) n 1)
            = FetchResponse r
         /\ up_ok r = true)) /\
  (In (status (fst (Attachment.GET w env id q))) [200; 400; 500]
   /\ (length (snd (Attachment.GET w env id q)) <= 1)%nat
   /\ (status (fst (Attachment.GET w env id q)) = 200 ->
       exists n r,
         parseInt id 0 = Some n
         /\ upstream w (attachment_request (new_FreshdeskAPI (freshdeskConfig env)) n)
            = FetchResponse r
         /\ up_ok r = true
         /\ body (fst (Attachment.GET w env id q)) = BBlob (up_body r))).
Proof.
  split; [|split].
  - split; [|split].
    + destruct (as_id (parseInt id 0)) as [n|] eqn:Hid.
      * destruct (configuration_error (freshdeskConfig env)) as [r|] eqn:Hc.
        -- rewrite (ticket_GET_misconfigured w env id n r Hid Hc). cbn [fst].
           destruct (configuration_error_500 _ _ Hc) as [-> _]. cbn; auto.
        -- destruct (ticket_GET_configured w env id n Hid Hc)
             as [_ [-> | [-> | ->]]]; cbn; auto.
      * rewrite ticket_GET_invalid by assumption. cbn; auto.
    + destruct (as_id (parseInt id 0)) as [n|] eqn:Hid.
      * destruct (configuration_error (freshdeskConfig env)) as [r|] eqn:Hc.
        -- rewrite (ticket_GET_misconfigured w env id n r Hid Hc). cbn; lia.
        -- destruct (ticket_GET_configured w env id n Hid Hc) as [-> _]. cbn; lia.
      * rewrite ticket_GET_invalid by assumption. cbn; lia.
    + intros H. destruct (ticket_GET_200 id H) as (n & r & Hid%as_id_Some & Hr & Hok).
      exists n, r. now destruct Hid.
  - split; [|split].
    + destruct (as_id (parseInt id 0)) as [n|] eqn:Hid.
      * destruct (configuration_error (freshdeskConfig env)) as [r|] eqn:Hc.
        -- rewrite (conversations_GET_misconfigured w env id n r Hid Hc). cbn [fst].
           destruct (configuration_error_500 _ _ Hc) as [-> _]. cbn; auto.
        -- destruct (conversations_GET_configured w env id n Hid Hc)
             as [_ [[-> _] | [-> | ->]]]; cbn; auto.
      * rewrite conversations_GET_invalid by assumption. cbn; auto.
    + destruct (as_id (parseInt id 0)) as [n|] eqn:Hid.
      * destruct (configuration_error (freshdeskConfig env)) as [r|] eqn:Hc.
        -- rewrite (conversations_GET_misconfigured w env id n r Hid Hc). cbn; lia.
        -- destruct (conversations_GET_configured w env id n Hid Hc) as [-> _].
           cbn; lia.
      * rewrite conversations_GET_invalid by assumption. cbn; lia.
    + intros H.
      destruct (as_id (parseInt id 0)) as [n|] eqn:Hid;
        [|rewrite conversations_GET_invalid in H by assumption; discriminate H].
      destruct (configuration_error (freshdeskConfig env)) as [r|] eqn:Hc.
      { rewrite (conversations_GET_misconfigured w env id n r Hid Hc) in H.
        cbn [fst] in H. destruct (configuration_error_500 _ _ Hc) as [H5 _].
        congruence. }
      destruct (conversations_GET_configured w env id n Hid Hc)
        as [_ [[_ [data Hdata]] | [H' | H']]]; try congruence.
      destruct (getConversations_Ok (new_FreshdeskAPI (freshdeskConfig env)) n 1 data Hdata) as (r & Hr & Hok & _).
      apply as_id_Some in Hid as [Hid _]. eauto.
  - split; [|split].
    + destruct (as_id (parseInt id 0)) as [n|] eqn:Hid.
      * destruct (str_falsy (FRESHDESK_DOMAIN env) || str_falsy (FRESHDESK_API_KEY env))
          eqn:Hc.
        -- rewrite (attachment_GET_unconfigured w env id q n Hid Hc). cbn; auto.
        -- destruct (attachment_GET_configured w env id q n Hid Hc)
             as [_ [-> | ->]]; cbn; auto.
      * rewrite attachment_GET_invalid by assumption. cbn; auto.
    + destruct (as_id (parseInt id 0)) as [n|] eqn:Hid.
      * destruct (str_falsy (FRESHDESK_DOMAIN env) || str_falsy (FRESHDESK_API_KEY env))
          eqn:Hc.
        -- rewrite (attachment_GET_unconfigured w env id q n Hid Hc). cbn; lia.
        -- destruct (attachment_GET_configured w env id q n Hid Hc) as [-> _].
           cbn; lia.
      * rewrite attachment_GET_invalid by assumption. cbn; lia.
    + intros H.
      destruct (attachment_GET_200 id q H) as (n & r & Hid%as_id_Some & Hr & Hok & Hb).
      exists n, r. now destruct Hid.
Qed.

End RouteAnswers.

(** ** Timeouts, rejected credentials and misread failures *)

Section FailureKinds.

Context (w : World) (env : Env).

Let api : FreshdeskAPI := new_FreshdeskAPI (freshdeskConfig env).

(** X7.  When the timer aborts the request, the ticket and the conversations
    route answer 500 with the details [Request timeout - Freshdesk API took
    too long to respond], and the attachment route answers 500 with the
    details [Attachment download timeout - file took too long to
    download]. *)
Theorem timeout_reported (id : string) (q : option string) (n : Z) :
  parseInt id 0 = Some n -> n <> 0 ->
  (configuration_error (freshdeskConfig env) = None ->
   upstream w (ticket_request api n) = FetchAbort ->
   exists v,
     Ticket.GET w env id = (NextResponse_json v 500, [ticket_request api n])
     /\ prop "details" v
        = JStr "Request timeout - Freshdesk API took too long to respond") /\
  (configuration_error (freshdeskConfig env) = None ->
   upstream w (conversations_request api n 1) = FetchAbort ->
   exists v,
     Conversations.GET w env id
     = (NextResponse_json v 500, [conversations_request api n 1])
     /\ prop "details" v
        = JStr "Request timeout - Freshdesk API took too long to respond") /\
  (str_falsy (FRESHDESK_DOMAIN env) || str_falsy (FRESHDESK_API_KEY env) = false ->
   upstream w (attachment_request api n) = FetchAbort ->
   exists v,
     Attachment.GET w env id q = (NextResponse_json v 500, [attachment_request api n])
     /\ prop "details" v
        = JStr "Attachment download timeout - file took too long to download").
Proof.
  intros Hid Hn.
  assert (Hid' : as_id (parseInt id 0) = Some n) by now apply as_id_Some.
  split; [|split].
  - intros Hc Hr. unfold Ticket.GET, getTicket, fetch.
    rewrite Hid', Hc. fold api. rewrite Hr.
    eexists. split; reflexivity.
  - intros Hc Hr. unfold Conversations.GET, getConversations, fetch.
    rewrite Hid', Hc. fold api. rewrite Hr.
    eexists. split; reflexivity.
  - intros Hc Hr. unfold Attachment.GET, getAttachment, fetch.
    rewrite Hid', Hc. fold api. rewrite Hr.
    eexists. split; reflexivity.
Qed.

(** X8.  An upstream 401 is answered by the ticket and the conversations
    route with status 500 and the details [Authentication failed - check
    your API key and domain]. *)
Theorem authentication_failure_reported (id : string) (n : Z) (r : UpResponse) :
  parseInt id 0 = Some n -> n <> 0 ->
  configuration_error (freshdeskConfig env) = None ->
  up_status r = 401 ->
  (upstream w (ticket_request api n) = FetchResponse r ->
   exists v,
     Ticket.GET w env id = (NextResponse_json v 500, [ticket_request api n])
     /\ prop "error" v = JStr "Failed to Fetch Ticket"
     /\ prop "details" v = JStr "Authentication failed - check your API key and domain") /\
  (upstream w (conversations_request api n 1) = FetchResponse r ->
   exists v,
     Conversations.GET w env id
     = (NextResponse_json v 500, [conversations_request api n 1])
     /\ prop "error" v = JStr "Failed to Fetch Conversations"
     /\ prop "details" v = JStr "Authentication failed - check your API key and domain").
Proof.
  intros Hid Hn Hc Hs.
  assert (Hid' : as_id (parseInt id 0) = Some n) by now apply as_id_Some.
  split.
  - intros Hr. unfold Ticket.GET, getTicket, fetch.
    rewrite Hid', Hc. fold api. rewrite Hr. cbn [bind]. unfold up_ok. rewrite Hs.
    eexists. split; [reflexivity|split; reflexivity].
  - intros Hr. unfold Conversations.GET, getConversations, fetch.
    rewrite Hid', Hc. fold api. rewrite Hr. cbn [bind]. unfold up_ok. rewrite Hs.
    eexists. split; [reflexivity|split; reflexivity].
Qed.

(** X9.  An upstream error whose body holds the text [fetch failed] is taken
    for a failure of the network: the client's own error passes through its
    [catch], which looks for that text.  The ticket route then answers 500
    with the details of a network error, although the upstream service has
    answered. *)
Theorem upstream_error_taken_for_network_error (id : string) (n : Z) (r : UpResponse) :
  parseInt id 0 = Some n -> n <> 0 ->
  configuration_error (freshdeskConfig env) = None ->
  upstream w (ticket_request api n) = FetchResponse r ->
  up_ok r = false -> up_status r <> 404 -> up_status r <> 401 ->
  includes "fetch failed" (up_body r) = true ->
  exists v,
    Ticket.GET w env id = (NextResponse_json v 500, [ticket_request api n])
    /\ prop "details" v
       = JStr "Network error - Unable to connect to Freshdesk API. Check your domain and network connectivity.".
Proof.
  intros Hid Hn Hc Hr Hok H404 H401 Hbody.
  assert (Hid' : as_id (parseInt id 0) = Some n) by now apply as_id_Some.
  unfold Ticket.GET, getTicket, fetch.
  rewrite Hid', Hc. fold api. rewrite Hr. cbn [bind]. rewrite Hok.
  apply Z.eqb_neq in H404, H401. rewrite H404, H401.
  cbn [negb throw try_catch Error rethrow_with_context].
  change (String.eqb "Error" "AbortError") with false. cbn iota.
  rewrite (includes_app_r "fetch failed" "Failed to fetch ticket: ").
  - eexists. split; reflexivity.
  - do 4 apply includes_app_r. exact Hbody.
Qed.

End FailureKinds.

Lemma timeout_reported_witness :
  exists v,
    Ticket.GET Scenarios.timing_out Samples.configured "7"
    = (NextResponse_json v 500,
       [ticket_request (new_FreshdeskAPI (freshdeskConfig Samples.configured)) 7])
    /\ prop "details" v
       = JStr "Request timeout - Freshdesk API took too long to respond".
Proof.
  destruct (timeout_reported Scenarios.timing_out Samples.configured "7" None 7 eq_refl)
    as (H & _ & _); [discriminate|].
  apply H; reflexivity.
Defined.

Lemma authentication_failure_reported_witness :
  exists v,
    Ticket.GET Scenarios.unauthorized Samples.configured "7"
    = (NextResponse_json v 500,
       [ticket_request (new_FreshdeskAPI (freshdeskConfig Samples.configured)) 7])
    /\ prop "error" v = JStr "Failed to Fetch Ticket"
    /\ prop "details" v = JStr "Authentication failed - check your API key and domain".
Proof.
  destruct (authentication_failure_reported Scenarios.unauthorized Samples.configured
              "7" 7 (Samples.answer 401 "Unauthorized" ∅ JNull) eq_refl)
    as (H & _); [discriminate|reflexivity|reflexivity|].
  apply H; reflexivity.
Defined.

Lemma upstream_error_taken_for_network_error_witness :
  exists v,
    Ticket.GET Scenarios.bad_gateway Samples.configured "7"
    = (NextResponse_json v 500,
       [ticket_request (new_FreshdeskAPI (freshdeskConfig Samples.configured)) 7])
    /\ prop "details" v
       = JStr "Network error - Unable to connect to Freshdesk API. Check your domain and network connectivity.".
Proof.
  eapply (upstream_error_taken_for_network_error Scenarios.bad_gateway
            Samples.configured "7" 7);
    [reflexivity|discriminate|reflexivity|reflexivity|reflexivity
    |discriminate|discriminate|reflexivity].
Defined.

(** ** Defaults of the normalisers *)

Section NormaliserDefaults.

(** X10.  Besides status, priority and agent, the normalised ticket passes
    identifier, subject and both time stamps through unchanged; takes the
    plain-text description when it is not empty and the other description
    otherwise; names a requester without name Unknown and gives a requester
    without email the placeholder address; and has the empty list for
    missing tags. *)
Theorem ticket_defaults (ticketData : JsVal) :
  nullish ticketData = false ->
  exists t, Ticket.transformedTicket ticketData = (Ok t, []) /\
    prop "id" t = prop "id" ticketData /\
    prop "subject" t = prop "subject" ticketData /\
    prop "created_at" t = prop "created_at" ticketData /\
    prop "updated_at" t = prop "updated_at" ticketData /\
    prop "description" t
    = (if truthy (prop "description_text" ticketData)
       then prop "description_text" ticketData
       else prop "description" ticketData) /\
    (truthy (opt_prop "name" (prop "requester" ticketData)) = false ->
     prop "name" (prop "requester" t) = JStr "Unknown") /\
    (truthy (opt_prop "email" (prop "requester" ticketData)) = false ->
     prop "email" (prop "requester" t) = JStr "unknown@example.com") /\
    (truthy (opt_prop "name" (prop "requester" ticketData)) = true ->
     prop "name" (prop "requester" t) = opt_prop "name" (prop "requester" ticketData)) /\
    (truthy (prop "tags" ticketData) = false -> prop "tags" t = JArr []) /\
    (truthy (prop "tags" ticketData) = true -> prop "tags" t = prop "tags" ticketData).
Proof.
  intros H. unfold Ticket.transformedTicket, read. rewrite H.
  eexists. split; [reflexivity|].
  repeat split; try reflexivity; intros Hx;
    match goal with
    | |- prop ?k (prop ?k' (obj ?l)) = _ =>
        change (prop k (prop k' (obj l)))
          with (or_else (opt_prop k (prop k' ticketData))
                        (prop k (obj [("name", JStr "Unknown");
                                      ("email", JStr "unknown@example.com")])))
    | |- prop "tags" (obj ?l) = _ =>
        change (prop "tags" (obj l)) with (or_else (prop "tags" ticketData) (JArr []))
    end; unfold or_else; now rewrite Hx.
Qed.

Lemma ticket_defaults_witness :
  exists t,
    Ticket.transformedTicket
      (obj [("id", JNum 9); ("description_text", JStr "");
            ("description", JStr "<p>hi</p>")]) = (Ok t, [])
    /\ prop "description" t = JStr "<p>hi</p>"
    /\ prop "name" (prop "requester" t) = JStr "Unknown"
    /\ prop "tags" t = JArr [].
Proof.
  destruct (ticket_defaults
              (obj [("id", JNum 9); ("description_text", JStr "");
                    ("description", JStr "<p>hi</p>")]) eq_refl)
    as (t & Ht & _ & _ & _ & _ & Hd & Hn & _ & _ & Htags & _).
  exists t. split; [exact Ht|]. split; [exact Hd|].
  split; [apply Hn|apply Htags]; reflexivity.
Defined.



End NormaliserDefaults.

(** ** The list of conversations *)

Section ConversationList.

Context (w : World) (env : Env).

Lemma getConversations_ok (api : FreshdeskAPI) (n page : Z) (r : UpResponse) (v : JsVal) :
  upstream w (conversations_request api n page) = FetchResponse r ->
  up_ok r = true -> up_json r = Ok v ->
  getConversations w api n page = (Ok v, [conversations_request api n page]).
Proof.
  intros Hr Hok Hj. unfold getConversations, fetch, up_read_json.
  rewrite Hr. cbn [bind]. now rewrite Hok, Hj.
Qed.

Lemma getTicket_ok (api : FreshdeskAPI) (n : Z) (r : UpResponse) (v : JsVal) :
  upstream w (ticket_request api n) = FetchResponse r ->
  up_ok r = true -> up_json r = Ok v ->
  getTicket w api n = (Ok v, [ticket_request api n]).
Proof.
  intros Hr Hok Hj. unfold getTicket, fetch, up_read_json.
  rewrite Hr. cbn [bind]. now rewrite Hok, Hj.
Qed.

Lemma transformConversation_throws (c : JsVal) (e : Thrown) :
  outcome (Conversations.transformConversation c) = Throw e ->
  error_includes e "404" = false.
Proof.
  unfold Conversations.transformConversation, read, Conversations.author_name.
  destruct (nullish c) eqn:Hc.
  - intros [= <-]. now destruct c.
  - cbn [bind ret]. destruct (truthy _); [discriminate|].
    destruct (prop "from_email" c); cbn; try discriminate; now intros [= <-].
Qed.

Lemma mapM_Ok (f : JsVal -> M JsVal) (l : list JsVal) :
  Forall (fun c => exists t, f c = (Ok t, [])) l ->
  exists l', Conversations.mapM f l = (Ok l', [])
             /\ Forall2 (fun c t => f c = (Ok t, [])) l l'.
Proof.
  induction 1 as [|c l [t Ht] _ (l' & Hl' & HF)].
  - exists []. split; [reflexivity|constructor].
  - exists (t :: l'). cbn [Conversations.mapM]. rewrite Ht. cbn [bind].
    rewrite Hl'. split; [reflexivity|now constructor].
Qed.

Lemma mapM_Throw (f : JsVal -> M JsVal) (P : Thrown -> Prop) (l : list JsVal)
    (e : Thrown) :
  (forall x e', outcome (f x) = Throw e' -> P e') ->
  outcome (Conversations.mapM f l) = Throw e -> P e.
Proof.
  intros Hf. induction l as [|x l IH]; [discriminate|].
  cbn [Conversations.mapM]. destruct (f x) as [[y|e'] log] eqn:Hx.
  - cbn [bind]. destruct (Conversations.mapM f l) as [[ys|e''] log'].
    + discriminate.
    + intros [= <-]. now apply IH.
  - intros [= <-]. apply (Hf x). now rewrite Hx.
Qed.

Lemma mapM_Exists_Throw (f : JsVal -> M JsVal) (l : list JsVal) :
  Exists (fun c => exists e, outcome (f c) = Throw e) l ->
  exists e, outcome (Conversations.mapM f l) = Throw e.
Proof.
  induction 1 as [c l [e He] | c l _ [e He]]; cbn [Conversations.mapM].
  - destruct (f c) as [[y|e'] log]; [discriminate He|]. eexists; reflexivity.
  - destruct (f c) as [[y|e'] log]; [|eexists; reflexivity].
    cbn [bind]. destruct (Conversations.mapM f l) as [[ys|e''] log'];
      [discriminate He|]. eexists; reflexivity.
Qed.

(** X12.  When the upstream service delivers a list of conversations, the
    conversations route answers 200 with the list of their normal forms, in
    the same order and of the same length, provided every one of them can be
    normalised.  One [null] in the list, or a payload that is no list, makes
    the route answer 500 for the whole list. *)
Theorem conversations_list (id : string) (n : Z) (r : UpResponse) (payload : JsVal) :
  parseInt id 0 = Some n -> n <> 0 ->
  configuration_error (freshdeskConfig env) = None ->
  upstream w (conversations_request (new_FreshdeskAPI (freshdeskConfig env)) n 1)
  = FetchResponse r ->
  up_ok r = true -> up_json r = Ok payload ->
  (forall l,
     payload = JArr l ->
     Forall (fun c => exists t, Conversations.transformConversation c = (Ok t, [])) l ->
     exists l',
       Conversations.GET w env id
       = (NextResponse_json (JArr l') 200,
          [conversations_request (new_FreshdeskAPI (freshdeskConfig env)) n 1])
       /\ Forall2 (fun c t => Conversations.transformConversation c = (Ok t, [])) l l'
       /\ length l' = length l) /\
  (forall l,
     payload = JArr l -> Exists (fun c => nullish c = true) l ->
     status (fst (Conversations.GET w env id)) = 500) /\
  ((forall l, payload <> JArr l) ->
   status (fst (Conversations.GET w env id)) = 500).
Proof.
  intros Hid Hn Hc Hr Hok Hj.
  assert (Hid' : as_id (parseInt id 0) = Some n) by now apply as_id_Some.
  unfold Conversations.GET.
  rewrite Hid', Hc, (getConversations_ok _ _ _ _ _ Hr Hok Hj). cbn [bind].
  split; [|split].
  - intros l -> Hall. destruct (mapM_Ok _ l Hall) as (l' & Hl' & HF).
    exists l'. cbn [Conversations.array_map]. rewrite Hl'.
    split; [reflexivity|]. split; [exact HF|].
    symmetry. eapply Forall2_length, HF.
  - intros l -> Hnull. cbn [Conversations.array_map].
    assert (Hex : Exists (fun c => exists e,
                     outcome (Conversations.transformConversation c) = Throw e) l).
    { eapply Exists_impl; [exact Hnull|]. intros c Hcn.
      unfold Conversations.transformConversation, read. rewrite Hcn.
      eexists; reflexivity. }
    destruct (mapM_Exists_Throw _ l Hex) as [e He].
    pose proof (mapM_Throw _ (fun e => error_includes e "404" = false) l e
                  transformConversation_throws He) as H404.
    destruct (Conversations.mapM _ l) as [[ys|e'] log]; [discriminate He|].
    cbn in He. injection He as ->.
    cbn [bind try_catch ret catch_respond]. rewrite H404. reflexivity.
  - intros Hl. destruct payload; try reflexivity. now destruct (Hl l).
Qed.

End ConversationList.

Lemma conversations_list_witness :
  exists l',
    Conversations.GET
      (Scenarios.answering
         (JArr [obj [("id", JNum 1); ("from_email", JStr "jane@example.com")];
                obj [("id", JNum 2); ("private", JBool true)]]))
      Samples.configured "7"
    = (NextResponse_json (JArr l') 200,
       [conversations_request (new_FreshdeskAPI (freshdeskConfig Samples.configured)) 7 1])
    /\ length l' = 2%nat.
Proof.
  pose (payload :=
          JArr [obj [("id", JNum 1); ("from_email", JStr "jane@example.com")];
                obj [("id", JNum 2); ("private", JBool true)]]).
  destruct (conversations_list (Scenarios.answering payload) Samples.configured "7" 7
              (Samples.answer 200 "OK" ∅ payload) payload eq_refl) as (H & _ & _);
    [discriminate|reflexivity|reflexivity|reflexivity|reflexivity|].
  destruct (H _ eq_refl) as (l' & HGET & _ & Hlen).
  - repeat constructor; eexists; reflexivity.
  - exists l'. split; [exact HGET|exact Hlen].
Defined.

(** ** The file name in the content-disposition header *)

Section FilenameParser.

Lemma span_all (f : ascii -> bool) (s : string) :
  filter_chars (fun c => negb (f c)) s = "" -> span f s = (s, "").
Proof.
  induction s as [|c s IH]; [reflexivity|].
  cbn [filter_chars span]. destruct (f c); cbn [negb]; [|discriminate].
  intros H. now rewrite IH.
Qed.

Lemma filter_chars_id (f : ascii -> bool) (s : string) :
  filter_chars (fun c => negb (f c)) s = "" -> filter_chars f s = s.
Proof.
  induction s as [|c s IH]; [reflexivity|].
  cbn [filter_chars]. destruct (f c); cbn [negb]; [|discriminate].
  intros H. now rewrite IH.
Qed.

Lemma filter_chars_none (f : ascii -> bool) (s : string) :
  filter_chars f (filter_chars (fun c => negb (f c)) s) = "".
Proof.
  induction s as [|c s IH]; [reflexivity|].
  cbn [filter_chars]. destruct (f c) eqn:E; cbn [negb filter_chars]; [exact IH|].
  now rewrite E.
Qed.

Lemma until_quote_app (q : ascii) (name rest : string) :
  filter_chars (Ascii.eqb q) name = "" ->
  filter_chars is_line_terminator name = "" ->
  until_quote q (name +:+ String q rest) = Some name.
Proof.
  induction name as [|c name IH]; intros Hq Hl.
  - rewrite append_nil_l. cbn [until_quote]. now rewrite Ascii.eqb_refl.
  - rewrite append_cons. cbn [until_quote filter_chars] in *.
    rewrite Ascii.eqb_sym. destruct (Ascii.eqb q c); [discriminate|].
    destruct (is_line_terminator c); [discriminate|].
    now rewrite IH.
Qed.

Lemma filter_chars_weaken (f g : ascii -> bool) (s : string) :
  (forall c, f c = true -> g c = true) ->
  filter_chars g s = "" -> filter_chars f s = "".
Proof.
  intros Hfg. induction s as [|c s IH]; [reflexivity|].
  cbn [filter_chars]. destruct (g c) eqn:Eg; [discriminate|].
  destruct (f c) eqn:Ef; [|exact IH]. apply Hfg in Ef. congruence.
Qed.

Lemma filename_match_attachment (x : string) :
  filename_match ("attachment; filename=" +:+ x) = Some (filename_group x).
Proof. reflexivity. Qed.

(** X13.  From a header [attachment; filename="NAME"] the client takes NAME,
    for every NAME without quote character, line feed or carriage return;
    from a header [attachment; filename=NAME] it takes NAME, for every NAME
    without quote character, semicolon or line feed. *)
Theorem filename_from_header (w : World) (api : FreshdeskAPI) (n : Z)
    (r : UpResponse) (name header : string) :
  upstream w (attachment_request api n) = FetchResponse r ->
  up_ok r = true ->
  up_headers r !! "content-disposition" = Some header ->
  filter_chars is_quote name = "" ->
  (header = "attachment; filename="
            +:+ String double_quote (name +:+ String double_quote "")
   /\ filter_chars is_line_terminator name = ""
   \/ header = "attachment; filename=" +:+ name
      /\ filter_chars (fun c => negb (in_value_class c)) name = "") ->
  exists a, getAttachment w api n = (Ok a, [attachment_request api n])
            /\ filename a = name.
Proof.
  intros Hr Hok Hh Hq Hcases.
  rewrite (getAttachment_ok w api n r Hr Hok), Hh.
  eexists. split; [reflexivity|]. cbn [filename].
  assert (Hkeep : filter_chars (fun c => negb (is_quote c)) name = name).
  { apply filter_chars_id. apply (filter_chars_weaken _ is_quote); [|exact Hq].
    intros c. now rewrite negb_involutive. }
  assert (Hne : forall x, String.eqb ("attachment; filename=" +:+ x) "" = false)
    by reflexivity.
  unfold str_or. destruct Hcases as [[-> Hl] | [-> Hv]]; rewrite Hne.
  - rewrite filename_match_attachment. unfold filename_group.
    change (is_quote double_quote) with true. cbn iota.
    rewrite until_quote_app; [|apply (filter_chars_weaken _ is_quote)|exact Hl].
    + cbn [filter_chars]. change (negb (is_quote double_quote)) with false.
      cbn iota. rewrite filter_chars_app. cbn [filter_chars].
      change (negb (is_quote double_quote)) with false. cbn iota.
      now rewrite Hkeep, append_nil_r.
    + intros c Hc%Ascii.eqb_eq. now subst c.
    + exact Hq.
  - rewrite filename_match_attachment. unfold filename_group.
    rewrite (span_all _ _ Hv). cbn [fst].
    destruct name as [|c name']; [reflexivity|].
    cbn [filter_chars] in Hq. destruct (is_quote c); [discriminate|].
    exact Hkeep.
Qed.

(** X14.  A file name that the client returns holds no quote character,
    whatever the upstream service has sent. *)
Theorem filename_without_quotes (w : World) (api : FreshdeskAPI) (n : Z)
    (a : AttachmentData) :
  outcome (getAttachment w api n) = Ok a ->
  filter_chars is_quote (filename a) = "".
Proof.
  intros H. destruct (getAttachment_Ok w api n a H) as (r & Hr & Hok & _).
  rewrite (getAttachment_ok w api n r Hr Hok) in H. cbn in H. injection H as <-.
  cbn [filename]. destruct (filename_match _) as [g|].
  - apply filter_chars_none.
  - rewrite filter_chars_app. cbn.
    apply Number_toString_chars. intros c Hc. unfold is_quote in Hc.
    apply orb_true_iff in Hc as [Hc%Z.eqb_eq | Hc%Z.eqb_eq];
      destruct c as [[] [] [] [] [] [] [] []]; try discriminate Hc; reflexivity.
Qed.

End FilenameParser.

Lemma filename_from_header_witness :
  exists a,
    getAttachment
      (Samples.serves {[ "content-disposition" := Samples.quoted_report ]})
      (new_FreshdeskAPI (freshdeskConfig Samples.configured)) 7
    = (Ok a, [attachment_request (new_FreshdeskAPI (freshdeskConfig Samples.configured)) 7])
    /\ filename a = "report.pdf".
Proof.
  eapply (filename_from_header
            (Samples.serves {[ "content-disposition" := Samples.quoted_report ]})
            _ 7 _ "report.pdf" Samples.quoted_report);
    [reflexivity|reflexivity|reflexivity|reflexivity|].
  left. split; reflexivity.
Defined.

Lemma filename_without_quotes_witness :
  exists a,
    outcome (getAttachment
               (Samples.serves {[ "content-disposition" := "inline; filename='a'.txt" ]})
               (new_FreshdeskAPI (freshdeskConfig Samples.configured)) 7) = Ok a
    /\ filename a = "a"
    /\ filter_chars is_quote (filename a) = "".
Proof.
  eexists. split; [reflexivity|]. split; [reflexivity|].
  apply (filename_without_quotes
           (Samples.serves {[ "content-disposition" := "inline; filename='a'.txt" ]})
           (new_FreshdeskAPI (freshdeskConfig Samples.configured)) 7).
  reflexivity.
Defined.

(** ** The answer of the attachment route *)

Section AttachmentAnswer.

Context (w : World) (env : Env).

(** X15.  For an attachment that the upstream service delivers, the route
    answers 200 with the upstream bytes as body, the upstream content type
    (or [application/octet-stream] when there is none), the length of the
    body as content length, and [private, max-age=3600] as cache control,
    provided the content type and the resolved file name are admissible
    header values. *)
Theorem attachment_served (id : string) (q : option string) (n : Z) (r : UpResponse)
    (a : AttachmentData) :
  parseInt id 0 = Some n -> n <> 0 ->
  str_falsy (FRESHDESK_DOMAIN env) || str_falsy (FRESHDESK_API_KEY env) = false ->
  upstream w (attachment_request (new_FreshdeskAPI (freshdeskConfig env)) n)
  = FetchResponse r ->
  up_ok r = true ->
  outcome (getAttachment w (new_FreshdeskAPI (freshdeskConfig env)) n) = Ok a ->
  Attachment.valid_header_value (contentType a) = true ->
  Attachment.valid_header_value
    (str_or (Attachment.opt_or (Some (filename a)) q)
            ("attachment_" +:+ Number_toString n)) = true ->
  let response := fst (Attachment.GET w env id q) in
  status response = 200
  /\ body response = BBlob (up_body r)
  /\ headers response !! "content-type"
     = Some (str_or (up_headers r !! "content-type") "application/octet-stream")
  /\ headers response !! "content-length"
     = Some (Number_toString (Z.of_nat (String.length (up_body r))))
  /\ headers response !! "cache-control" = Some "private, max-age=3600"
  /\ headers response !! "content-disposition"
     = Some ("attachment; filename=" +:+ String double_quote
               (str_or (Attachment.opt_or (Some (filename a)) q)
                       ("attachment_" +:+ Number_toString n)
                +:+ String double_quote ""))
  /\ snd (Attachment.GET w env id q)
     = [attachment_request (new_FreshdeskAPI (freshdeskConfig env)) n].
Proof.
  intros Hid Hn Hc Hr Hok Ha Hct Hname response. subst response.
  assert (Hid' : as_id (parseInt id 0) = Some n) by now apply as_id_Some.
  pose proof (getAttachment_ok w _ n r Hr Hok) as Hg.
  rewrite Hg in Ha. cbn [outcome fst] in Ha. injection Ha as Ha.
  unfold Attachment.GET. rewrite Hid', Hc, Hg, Ha.
  cbn [bind]. unfold Attachment.headers_set.
  rewrite valid_header_value_app; cycle 1.
  { reflexivity. }
  { change (String double_quote (?x +:+ String double_quote ""))
      with (String double_quote "" +:+ (x +:+ String double_quote "")).
    repeat apply valid_header_value_app; (assumption || reflexivity). }
  cbn [bind ret]. rewrite Hct. cbn [bind ret].
  change (Attachment.valid_header_value "private, max-age=3600") with true.
  cbn [bind ret]. rewrite Number_toString_valid.
  cbn [bind ret catch_respond fst snd status body headers app].
  rewrite <- Ha. cbn [blob contentType].
  repeat split.
Qed.

End AttachmentAnswer.

Lemma attachment_served_witness :
  let response :=
    fst (Attachment.GET
           (Samples.serves {[ "content-type" := "application/pdf";
                              "content-disposition" := Samples.quoted_report ]})
           Samples.configured "7" None) in
  status response = 200
  /\ body response = BBlob "%PDF"
  /\ headers response !! "content-type" = Some "application/pdf"
  /\ headers response !! "content-length" = Some "4".
Proof.
  intros response.
  edestruct (attachment_served
               (Samples.serves {[ "content-type" := "application/pdf";
                                  "content-disposition" := Samples.quoted_report ]})
               Samples.configured "7" None 7) as (Hs & Hb & Hct & Hcl & _);
    [reflexivity|discriminate|reflexivity|reflexivity|reflexivity|reflexivity
    |reflexivity|reflexivity|].
  split; [exact Hs|]. split; [exact Hb|]. split; [exact Hct|exact Hcl].
Defined.

(** ** The search route *)

Section SearchRoute.

Context (w : World) (second_rejects_first : bool) (env : Env).

Let api : FreshdeskAPI := new_FreshdeskAPI (freshdeskConfig env).

Lemma is_number_string_spec (s : string) :
  is_number_string s = true <-> s <> "" /\ fst (span is_digit s) = s.
Proof.
  unfold is_number_string. rewrite andb_true_iff, negb_true_iff.
  rewrite String.eqb_neq, String.eqb_eq. reflexivity.
Qed.

Lemma read_digits_all (s : string) (a : Z) :
  fst (span is_digit s) = s -> 0 <= a ->
  exists m, read_digits 10 s (Some a) = Some m /\ 0 <= m.
Proof.
  revert a. induction s as [|c s IH]; intros a Hs Ha; [now exists a|].
  apply span_all_cons in Hs as [Hc Hs].
  assert (Hd : digit_value c = Some (code c - 48)).
  { unfold digit_value. unfold is_digit in Hc. now rewrite Hc. }
  unfold is_digit in Hc. apply andb_true_iff in Hc as [H1%Z.leb_le H2%Z.leb_le].
  rewrite (read_digits_step 10 c s (Some a) (code c - 48) Hd)
    by (apply Z.ltb_lt; lia).
  apply IH; [exact Hs|]. cbn [default]. unfold id. lia.
Qed.

(** A text of decimal digits is read by [parseInt] as a number that is not
    negative. *)
Lemma parseInt_number_string (s : string) :
  is_number_string s = true -> exists n, parseInt s 10 = Some n /\ 0 <= n.
Proof.
  intros [Hne Hs]%is_number_string_spec.
  rewrite parseInt_digit_string by (auto || assumption).
  destruct s as [|c s]; [congruence|].
  pose proof Hs as Hs'. apply span_all_cons in Hs' as [Hc Hs'].
  assert (Hd : digit_value c = Some (code c - 48)).
  { unfold digit_value. unfold is_digit in Hc. now rewrite Hc. }
  unfold is_digit in Hc. apply andb_true_iff in Hc as [H1%Z.leb_le H2%Z.leb_le].
  rewrite (read_digits_step 10 c s None (code c - 48) Hd) by (apply Z.ltb_lt; lia).
  apply read_digits_all; [exact Hs'|]. cbn [default]. unfold id. lia.
Qed.



End SearchRoute.


Section SearchRouteAnswers.

Context (w : World) (second_rejects_first : bool) (env : Env).

Let api : FreshdeskAPI := new_FreshdeskAPI (freshdeskConfig env).


End SearchRouteAnswers.


Section SearchNotFound.

Context (w : World) (second_rejects_first : bool) (env : Env).

Let api : FreshdeskAPI := new_FreshdeskAPI (freshdeskConfig env).

Lemma not_found_in_message (n : Z) (rest : string) :
  includes "not found" rest = true ->
  includes "not found" ("Ticket #" +:+ Number_toString n +:+ rest) = true.
Proof. intros H. now do 2 apply includes_app_r. Qed.

(** X18.  In a search by number or address, an upstream 404 for the
    conversations makes the route answer 404 with the error [Ticket not
    found], when the ticket itself was delivered as well as when it was
    answered 404 too, whichever rejection comes first. *)
Theorem search_conversations_not_found (query : string) (type : option string)
    (n : Z) (rt rc : UpResponse) :
  query <> "" -> type <> Some "domain" ->
  Search.extract_ticket_id type query = Some n -> n <> 0 ->
  upstream w (ticket_request api n) = FetchResponse rt ->
  upstream w (conversations_request api n 1) = FetchResponse rc ->
  up_status rc = 404 ->
  up_status rt = 404 \/ (up_ok rt = true /\ exists t, up_json rt = Ok t) ->
  exists v,
    Search.GET w second_rejects_first env (Some query) type
    = (NextResponse_json v 404, [ticket_request api n; conversations_request api n 1])
    /\ prop "error" v = JStr "Ticket not found".
Proof.
  intros Hq Hd Hx Hn Hrt Hrc Hsc Ht.
  unfold Search.GET, str_falsy.
  apply String.eqb_neq in Hq. rewrite Hq. cbn [default]. unfold id.
  rewrite bool_decide_eq_false_2 by assumption. rewrite Hx.
  replace (as_id (Some n)) with (Some n) by (symmetry; now apply as_id_Some).
  fold api. rewrite (getConversations_404_message w api n 1 rc Hrc Hsc).
  destruct Ht as [Hst | [Hok [t Hj]]].
  - rewrite (getTicket_404 w api n rt Hrt Hst).
    cbn [Search.promise_all2 bind catch_respond app].
    destruct second_rejects_first; cbn [error_includes Error].
    + rewrite not_found_in_message by reflexivity.
      eexists. split; reflexivity.
    + rewrite not_found_in_message by reflexivity.
      eexists. split; reflexivity.
  - rewrite (getTicket_ok w api n rt t Hrt Hok Hj).
    cbn [Search.promise_all2 bind catch_respond app error_includes Error].
    rewrite not_found_in_message by reflexivity.
    eexists. split; reflexivity.
Qed.

End SearchNotFound.

Lemma search_conversations_not_found_witness :
  exists v,
    Search.GET Samples.ticket_without_conversations false Samples.configured
      (Some "7") (Some "number")
    = (NextResponse_json v 404,
       [ticket_request (new_FreshdeskAPI (freshdeskConfig Samples.configured)) 7;
        conversations_request (new_FreshdeskAPI (freshdeskConfig Samples.configured)) 7 1])
    /\ prop "error" v = JStr "Ticket not found".
Proof.
  eapply (search_conversations_not_found Samples.ticket_without_conversations false
            Samples.configured "7" (Some "number") 7);
    [discriminate|discriminate|reflexivity|discriminate|reflexivity|reflexivity
    |reflexivity|].
  right. split; [reflexivity|]. eexists; reflexivity.
Defined.

(** ** What the dashboard shows *)

Section DashboardView.

Import View.

Lemma filterM_objects (f : JsVal -> bool) (l : list JsVal) (k : string) :
  Forall (fun c => nullish c = false) l ->
  filterM (fun conv => let* p := read k conv in ret (f p)) l
  = (Ok (List.filter (fun c => f (prop k c)) l), []).
Proof.
  induction 1 as [|c l Hc _ IH]; [reflexivity|].
  cbn [filterM List.filter]. unfold read at 1. rewrite Hc. cbn [bind ret].
  rewrite IH. cbn [bind ret app]. now destruct (f (prop k c)).
Qed.

(** X19.  Every loaded conversation is shown on exactly one of the two tabs:
    the public conversations and the private notes split the list, each in
    the order of the list, and their lengths add up to its length. *)
Theorem conversations_split (l : list JsVal) :
  Forall (fun c => nullish c = false) l ->
  exists pub priv,
    publicConversations l = (Ok pub, [])
    /\ privateNotes l = (Ok priv, [])
    /\ (length pub + length priv = length l)%nat
    /\ (forall c, In c l <-> In c pub \/ In c priv)
    /\ (forall c, In c pub -> truthy (prop "private" c) = false)
    /\ (forall c, In c priv -> truthy (prop "private" c) = true)
    /\ pub = List.filter (fun c => negb (truthy (prop "private" c))) l
    /\ priv = List.filter (fun c => truthy (prop "private" c)) l.
Proof.
  intros Hl. unfold publicConversations, privateNotes.
  rewrite (filterM_objects (fun p => negb (truthy p)) l "private" Hl).
  rewrite (filterM_objects truthy l "private" Hl).
  eexists _, _. split; [reflexivity|]. split; [reflexivity|].
  split; [|split; [|split; [|split; [|split; reflexivity]]]].
  - clear Hl. induction l as [|c l IH]; [reflexivity|].
    cbn [List.filter]. destruct (truthy (prop "private" c)); cbn [negb length]; lia.
  - intros c. rewrite !filter_In.
    destruct (truthy (prop "private" c)); cbn [negb]; intuition congruence.
  - intros c [_ Hc]%filter_In. now apply negb_true_iff in Hc.
  - now intros c [_ Hc]%filter_In.
Qed.

Lemma conversations_split_witness :
  exists pub priv,
    publicConversations
      [obj [("id", JNum 1)]; obj [("id", JNum 2); ("private", JBool true)]]
    = (Ok pub, [])
    /\ privateNotes
         [obj [("id", JNum 1)]; obj [("id", JNum 2); ("private", JBool true)]]
       = (Ok priv, [])
    /\ (length pub + length priv = 2)%nat.
Proof.
  destruct (conversations_split
              [obj [("id", JNum 1)]; obj [("id", JNum 2); ("private", JBool true)]])
    as (pub & priv & Hp & Hn & Hlen & _).
  - repeat constructor.
  - exists pub, priv. split; [exact Hp|]. split; [exact Hn|exact Hlen].
Defined.

Lemma split_nonempty (sep : ascii) (s : string) : split sep s <> [].
Proof.
  induction s as [|c s IH]; cbn [split]; [discriminate|].
  destruct (Ascii.eqb c sep); [discriminate|].
  now destruct (split sep s).
Qed.

Lemma split_app (sep : ascii) (a b : string) :
  split sep (a +:+ String sep b) = split sep a ++ split sep b.
Proof.
  induction a as [|c a IH].
  - rewrite append_nil_l. cbn [split]. now rewrite Ascii.eqb_refl.
  - rewrite append_cons. cbn [split]. rewrite IH.
    destruct (Ascii.eqb c sep); [reflexivity|].
    pose proof (split_nonempty sep a). now destruct (split sep a).
Qed.

Lemma split_no_separator (sep : ascii) (s : string) :
  filter_chars (fun x => Ascii.eqb x sep) s = "" -> split sep s = [s].
Proof.
  induction s as [|c s IH]; [reflexivity|]. cbn [filter_chars split].
  destruct (Ascii.eqb c sep); [discriminate|]. intros H. now rewrite (IH H).
Qed.

Lemma split_words (sep : ascii) (s : string) :
  Forall (fun word => filter_chars (fun x => Ascii.eqb x sep) word = "")
    (split sep s).
Proof.
  induction s as [|c s IH]; cbn [split]; [now repeat constructor|].
  destruct (Ascii.eqb c sep) eqn:E; [now constructor|].
  destruct (split sep s) as [|word words].
  - repeat constructor. cbn [filter_chars]. now rewrite E.
  - inversion IH as [|? ? Hw Hws]; subst. constructor; [|exact Hws].
    cbn [filter_chars]. now rewrite E.
Qed.

Lemma join_app (l1 l2 : list string) : join (l1 ++ l2) = join l1 +:+ join l2.
Proof.
  induction l1 as [|x l1 IH]; [now rewrite append_nil_l|].
  cbn [app join fold_right]. fold (join (l1 ++ l2)). fold (join l1).
  rewrite IH. induction x as [|c x IHx]; [now rewrite !append_nil_l|].
  rewrite !append_cons. now rewrite IHx.
Qed.

(** X20.  The initials of a name are the first characters of its words: a
    name without space gives its first character, a space between two parts
    of a name joins the initials of the parts, a space at the start adds
    nothing, and no space is among the initials. *)
Theorem initials_of_words (a b : string) (c : ascii) (word : string) :
  initials (a +:+ String " " b) = initials a +:+ initials b
  /\ (filter_chars (fun x => Ascii.eqb x " ") (String c word) = "" ->
      initials (String c word) = String c "")
  /\ initials (String " " a) = initials a
  /\ filter_chars (fun x => Ascii.eqb x " ") (initials a) = "".
Proof.
  unfold initials. split; [|split; [|split]].
  - now rewrite split_app, map_app, join_app.
  - intros H. now rewrite (split_no_separator _ _ H).
  - cbn [split]. rewrite Ascii.eqb_refl. cbn [map first_char join fold_right].
    now rewrite append_nil_l.
  - pose proof (split_words " " a) as H.
    induction H as [|w ws Hw _ IH]; [reflexivity|].
    cbn [map join fold_right]. fold (join (map first_char ws)).
    destruct w as [|d w]; cbn [first_char]; [now rewrite append_nil_l|].
    rewrite append_cons, append_nil_l. cbn [filter_chars] in *.
    destruct (Ascii.eqb d " "); [discriminate|exact IH].
Qed.

Lemma initials_of_words_witness :
  initials "Unknown" = "U".
Proof.
  destruct (initials_of_words "" "" "U" "nknown") as (_ & H & _).
  apply H; reflexivity.
Defined.

(** X21.  After a search by domain has found tickets, the dashboard does not
    show them: with results and no chosen ticket it leaves the search screen,
    the effect of the hook clears the state, and what is rendered is the
    error screen with the text for an unexpected error. *)
Theorem domain_results_show_error_screen (w : World) (env : Env)
    (results : list JsVal) (s : ViewState) :
  results <> [] ->
  screen None results (fst (useFreshdeskData w env None s))
  = ErrorScreen "An unexpected error occurred while loading the ticket."
  /\ snd (useFreshdeskData w env None s) = [].
Proof.
  intros Hr. destruct results as [|x results]; [congruence|].
  split; reflexivity.
Qed.

Lemma domain_results_show_error_screen_witness :
  screen None [JNum 1] (fst (useFreshdeskData Samples.not_found Samples.configured None
                               Samples.initial))
  = ErrorScreen "An unexpected error occurred while loading the ticket.".
Proof.
  apply (domain_results_show_error_screen Samples.not_found Samples.configured
           [JNum 1] Samples.initial).
  discriminate.
Defined.

End DashboardView.

(** ** The search box *)

Section SearchBoxFacts.

Import SearchBox.

Lemma span_fst_all (f : ascii -> bool) (s : string) :
  fst (span f (fst (span f s))) = fst (span f s).
Proof.
  induction s as [|c s IH]; [reflexivity|]. cbn [span].
  destruct (f c) eqn:E; [|reflexivity].
  destruct (span f s) as [a b] eqn:Es. cbn [fst span] in *. rewrite E.
  destruct (span f a) as [a' b'] eqn:Ea. cbn [fst] in *. now rewrite IH.
Qed.

Lemma captured_digits (r : string) :
  String.eqb (fst (span is_digit r)) "" = false ->
  is_number_string (fst (span is_digit r)) = true.
Proof.
  intros H. unfold is_number_string. rewrite H, span_fst_all.
  now rewrite String.eqb_refl.
Qed.

Lemma tickets_match_digits (s g : string) :
  tickets_match s = Some g -> is_number_string g = true.
Proof.
  induction s as [|c s IH]; cbn [tickets_match]; unfold tickets_match_here.
  - cbn. discriminate.
  - destruct (strip_prefix "/tickets/" (String c s)) as [r|]; [|exact IH].
    destruct (String.eqb (fst (span is_digit r)) "") eqn:E; [exact IH|].
    intros [= <-]. now apply captured_digits.
Qed.

Lemma param_match_here_digits (s g : string) :
  param_match_here s = Some g -> is_number_string g = true.
Proof.
  unfold param_match_here. destruct s as [|c r]; [discriminate|].
  destruct ((code c =? 63) || (code c =? 38)); [|discriminate].
  destruct (strip_prefix_ci "ticket" r) as [r1|]; [|discriminate].
  match goal with |- context [strip_prefix_ci "id" ?x] =>
    destruct (strip_prefix_ci "id" x) as [[|e r3]|] end; try discriminate.
  destruct (Ascii.eqb_spec e "="); [|destruct e as [[] [] [] [] [] [] [] []]; try discriminate; congruence].
  subst e.
  destruct (String.eqb (fst (span is_digit r3)) "") eqn:E; [discriminate|].
  intros [= <-]. now apply captured_digits.
Qed.

Lemma param_match_digits (s g : string) :
  param_match s = Some g -> is_number_string g = true.
Proof.
  induction s as [|c s IH]; cbn [param_match].
  - cbn. discriminate.
  - destruct (param_match_here (String c s)) as [g'|] eqn:E; [|exact IH].
    intros [= <-]. now apply (param_match_here_digits _ _ E).
Qed.

Lemma extractTicketId_nonneg (input : string) (n : Z) :
  extractTicketId input = Some n -> 0 <= n.
Proof.
  unfold extractTicketId.
  assert (Hd : forall g, is_number_string g = true -> parseInt g 10 = Some n -> 0 <= n).
  { intros g Hg Hp. destruct (parseInt_number_string g Hg) as (m & Hm & Hpos).
    congruence. }
  destruct (is_number_string (trim input)) eqn:E; [now apply Hd|].
  destruct (tickets_match (trim input)) as [g|] eqn:Et.
  { apply Hd. now apply (tickets_match_digits _ _ Et). }
  destruct (param_match (trim input)) as [g|] eqn:Ep; [|discriminate].
  apply Hd. now apply (param_match_digits _ _ Ep).
Qed.

(** X22.  The search box hands only positive ticket numbers to the
    dashboard: whatever is typed, it either passes on a number above zero,
    the one that [extractTicketId] found, or shows the alert, and it does so
    exactly when no number, or zero, was found. *)
Theorem search_box_passes_positive_ids (input : string) :
  match handleSingleTicketSearch input with
  | onTicketFound n => 0 < n /\ extractTicketId input = Some n
  | alert message =>
      message = "Please enter a valid ticket number or Freshdesk URL"
      /\ (extractTicketId input = None \/ extractTicketId input = Some 0)
  end.
Proof.
  unfold handleSingleTicketSearch, as_id, not_number.
  destruct (extractTicketId input) as [n|] eqn:E; [|now split; [|left]].
  pose proof (extractTicketId_nonneg _ _ E).
  destruct (Z.eqb_spec n 0); [subst; split; [reflexivity|now right]|].
  split; [lia|reflexivity].
Qed.















End SearchBoxFacts.

(** ** From the conversations route to the tabs of the dashboard *)

Section RouteToTabs.

Import View.

Lemma transformConversation_Ok (c t : JsVal) :
  Conversations.transformConversation c = (Ok t, []) ->
  nullish t = false
  /\ prop "attachments" t = or_else (prop "attachments" c) (JArr [])
  /\ prop "private" t = or_else (prop "private" c) (JBool false).
Proof.
  unfold Conversations.transformConversation, read.
  destruct (nullish c); [discriminate|]. cbn [bind ret].
  destruct (Conversations.author_name c) as [[name|e] log]; [|discriminate].
  cbn [bind ret]. intros [= <- _]. now repeat split.
Qed.

(** X25.  The conversations that the route has normalised never make the
    dashboard fail: the two filters and the list of files are computed, the
    list of files is the upstream lists of attachments one after the other
    (nothing for a conversation without any), and the private notes are the
    conversations that the upstream service marked private. *)
Theorem tabs_of_normalised (l l' : list JsVal) (files : list (list JsVal)) :
  Forall2 (fun c t => Conversations.transformConversation c = (Ok t, [])) l l' ->
  Forall2 (fun c items => or_else (prop "attachments" c) (JArr []) = JArr items)
    l files ->
  allAttachments l' = (Ok (concat files), [])
  /\ exists pub priv,
       publicConversations l' = (Ok pub, [])
       /\ privateNotes l' = (Ok priv, [])
       /\ (length pub + length priv = length l)%nat
       /\ length priv
          = length (List.filter (fun c => truthy (prop "private" c)) l).
Proof.
  intros Hn Hf.
  assert (Hobj : Forall (fun t => nullish t = false) l').
  { clear Hf. induction Hn as [|c t l l' Ht _ IH]; constructor; [|exact IH].
    now apply transformConversation_Ok in Ht. }
  split.
  - clear Hobj. revert files Hf.
    induction Hn as [|c t l l' Ht _ IH]; intros files Hf.
    + now inversion Hf.
    + inversion Hf as [|? items ? files' Hitems Hrest]; subst.
      apply transformConversation_Ok in Ht as (Hnull & Hatt & _).
      cbn [allAttachments]. unfold read at 1. rewrite Hnull. cbn [bind ret].
      rewrite (IH _ Hrest). cbn [bind ret app]. now rewrite Hatt, Hitems.
  - unfold publicConversations, privateNotes.
    rewrite (filterM_objects (fun p => negb (truthy p)) l' "private" Hobj).
    rewrite (filterM_objects truthy l' "private" Hobj).
    eexists _, _. split; [reflexivity|]. split; [reflexivity|].
    clear Hf Hobj. induction Hn as [|c t l l' Ht _ [IH1 IH2]]; [now split|].
    apply transformConversation_Ok in Ht as (_ & _ & Hp).
    assert (Ht : truthy (or_else (prop "private" c) (JBool false))
                 = truthy (prop "private" c)).
    { unfold or_else. now destruct (truthy (prop "private" c)) eqn:E. }
    cbn [List.filter]. rewrite Hp, Ht.
    destruct (truthy (prop "private" c)); cbn [negb length]; split; lia.
Qed.

Lemma tabs_of_normalised_witness :
  allAttachments
    [obj [("id", JNum 1); ("body", JUndefined); ("body_text", JUndefined);
          ("from_email", JStr "a@b.c"); ("to_emails", JArr []);
          ("cc_emails", JArr []); ("bcc_emails", JArr []);
          ("created_at", JUndefined); ("updated_at", JUndefined);
          ("incoming", JBool false); ("private", JBool false);
          ("user", obj [("name", JStr "a"); ("email", JStr "a@b.c");
                        ("avatar", JNull)]);
          ("attachments", JArr [])]]
  = (Ok [], []).
Proof.
  apply (tabs_of_normalised [obj [("id", JNum 1); ("from_email", JStr "a@b.c")]]
           _ [[]]).
  - repeat constructor.
  - repeat constructor.
Defined.

End RouteToTabs.
